(** * cdq-mcp: the authenticating client, the call wrapper and the tools

    A shallow embedding of [server.py].  Python values are an inductive type,
    exceptions are a class together with the text of [str(e)], and code that
    talks to the network, mutates the client or raises runs in a state and
    exception monad.  The libraries the module imports ([requests], [json],
    [pandas]) are not part of the repository: what the code relies on is
    either modelled after their documented behaviour (marked as such) or
    taken as a field of the [Runtime] interface. *)

From Stdlib Require Import String Ascii List ZArith Bool Lia DecimalString PrimFloat.
Import ListNotations.
Open Scope string_scope.
Set Warnings "-register-all".

(** ** Python values *)

(** The values [json.loads] produces, which are also the values the tools
    build and hand to [json.dumps].  A [dict] keeps its insertion order, so
    it is an association list; JSON objects only have string keys. *)
Inductive pyval : Type :=
| PNone
| PBool (b : bool)
| PInt (z : Z)
| PFloat (f : float)
| PStr (s : string)
| PList (l : list pyval)
| PDict (d : list (string * pyval)).

Definition dict := list (string * pyval).

(** A newline; a Python [str] is a [string] here, one character each. *)
Definition nl : string := String (ascii_of_nat 10) EmptyString.

(** [str(n)] for an [int]. *)
Definition str_int (z : Z) : string := NilZero.string_of_int (Z.to_int z).

(** [len(...)] is a natural number; formatting it goes through [int]. *)
Definition str_len (n : nat) : string := str_int (Z.of_nat n).

(** [s[:n]] on a [str]. *)
Definition str_prefix (n : nat) (s : string) : string := substring 0 n s.

(** [x is None]. *)
Definition is_None (v : pyval) : bool :=
  match v with PNone => true | _ => false end.

(** Truth value testing, as [not x] and [if x] use it. *)
Definition py_bool (v : pyval) : bool :=
  match v with
  | PNone => false
  | PBool b => b
  | PInt z => negb (z =? 0)%Z
  | PFloat f => negb (PrimFloat.eqb f PrimFloat.zero)
  | PStr s => negb (s =? "")
  | PList l => match l with [] => false | _ => true end
  | PDict d => match d with [] => false | _ => true end
  end.

(** [type(x).__name__]. *)
Definition py_type_name (v : pyval) : string :=
  match v with
  | PNone => "NoneType"
  | PBool _ => "bool"
  | PInt _ => "int"
  | PFloat _ => "float"
  | PStr _ => "str"
  | PList _ => "list"
  | PDict _ => "dict"
  end.

(** [d.get(k)] on an association list: the first binding of [k]. *)
Fixpoint dict_lookup (d : dict) (k : string) : option pyval :=
  match d with
  | [] => None
  | (k', v) :: rest => if k' =? k then Some v else dict_lookup rest k
  end.

(** [d[k] = v]: an existing key keeps its place, a new one goes last. *)
Fixpoint dict_setitem (d : dict) (k : string) (v : pyval) : dict :=
  match d with
  | [] => [(k, v)]
  | (k', v') :: rest =>
      if k' =? k then (k', v) :: rest else (k', v') :: dict_setitem rest k v
  end.

(** [d.setdefault(k, v)], for its effect on [d]. *)
Definition dict_setdefault (d : dict) (k : string) (v : pyval) : dict :=
  match dict_lookup d k with
  | Some _ => d
  | None => dict_setitem d k v
  end.

(** The characters of a [str], each a [str] of length one. *)
Fixpoint str_chars (s : string) : list pyval :=
  match s with
  | EmptyString => []
  | String c rest => PStr (String c EmptyString) :: str_chars rest
  end.

(** ** Exceptions *)

(** The exception classes the module can meet, all below [Exception].
    [RequestException] and the classes named after it are those of
    [requests.exceptions]; [JSONDecodeError] is [json.JSONDecodeError] and
    [RequestsJSONDecodeError] is [requests.exceptions.JSONDecodeError].
    [OtherException] stands for any further class derived from [Exception]
    directly.  Interpreter signals outside [Exception] ([KeyboardInterrupt],
    [SystemExit]) are not behaviours of the client and are not modelled. *)
Inductive exn_class : Type :=
| Exception_
| ValueError
| TypeError
| LookupError
| KeyError
| AttributeError
| OSError
| JSONDecodeError
| RequestException
| HTTPError
| ConnectionError
| Timeout
| ConnectTimeout
| ReadTimeout
| InvalidJSONError
| RequestsJSONDecodeError
| OtherException (name : string).

(** The method resolution order of a class, up to [Exception]:
    the class itself, then everything it derives from. *)
Definition mro (c : exn_class) : list exn_class :=
  match c with
  | Exception_ => [Exception_]
  | ValueError => [ValueError; Exception_]
  | TypeError => [TypeError; Exception_]
  | LookupError => [LookupError; Exception_]
  | KeyError => [KeyError; LookupError; Exception_]
  | AttributeError => [AttributeError; Exception_]
  | OSError => [OSError; Exception_]
  | JSONDecodeError => [JSONDecodeError; ValueError; Exception_]
  | RequestException => [RequestException; OSError; Exception_]
  | HTTPError => [HTTPError; RequestException; OSError; Exception_]
  | ConnectionError => [ConnectionError; RequestException; OSError; Exception_]
  | Timeout => [Timeout; RequestException; OSError; Exception_]
  | ConnectTimeout =>
      [ConnectTimeout; ConnectionError; Timeout; RequestException; OSError;
       Exception_]
  | ReadTimeout => [ReadTimeout; Timeout; RequestException; OSError; Exception_]
  | InvalidJSONError =>
      [InvalidJSONError; RequestException; OSError; Exception_]
  | RequestsJSONDecodeError =>
      [RequestsJSONDecodeError; InvalidJSONError; RequestException; OSError;
       JSONDecodeError; ValueError; Exception_]
  | OtherException n => [OtherException n; Exception_]
  end.

Definition exn_class_eqb (a b : exn_class) : bool :=
  match a, b with
  | Exception_, Exception_ | ValueError, ValueError | TypeError, TypeError
  | LookupError, LookupError | KeyError, KeyError
  | AttributeError, AttributeError | OSError, OSError
  | JSONDecodeError, JSONDecodeError | RequestException, RequestException
  | HTTPError, HTTPError | ConnectionError, ConnectionError
  | Timeout, Timeout | ConnectTimeout, ConnectTimeout
  | ReadTimeout, ReadTimeout | InvalidJSONError, InvalidJSONError
  | RequestsJSONDecodeError, RequestsJSONDecodeError => true
  | OtherException n, OtherException m => n =? m
  | _, _ => false
  end.

(** [issubclass(c, d)]. *)
Definition issubclass (c d : exn_class) : bool :=
  existsb (exn_class_eqb d) (mro c).

(** [cls.__name__]. *)
Definition class_name (c : exn_class) : string :=
  match c with
  | Exception_ => "Exception"
  | ValueError => "ValueError"
  | TypeError => "TypeError"
  | LookupError => "LookupError"
  | KeyError => "KeyError"
  | AttributeError => "AttributeError"
  | OSError => "OSError"
  | JSONDecodeError => "JSONDecodeError"
  | RequestException => "RequestException"
  | HTTPError => "HTTPError"
  | ConnectionError => "ConnectionError"
  | Timeout => "Timeout"
  | ConnectTimeout => "ConnectTimeout"
  | ReadTimeout => "ReadTimeout"
  | InvalidJSONError => "InvalidJSONError"
  | RequestsJSONDecodeError => "JSONDecodeError"
  | OtherException n => n
  end.

(** A raised exception: its class and [str(e)]. *)
Record exn : Type := mkExn { exn_type : exn_class; exn_str : string }.

(** [isinstance(e, c)], the test an [except c] clause makes. *)
Definition isinstance (e : exn) (c : exn_class) : bool :=
  issubclass (exn_type e) c.

(** What running a piece of Python gives: a value, or a raised exception. *)
Inductive result (A : Type) : Type :=
| Returned (a : A)
| Raised (e : exn).
Arguments Returned {A} a.
Arguments Raised {A} e.

(** ** Operations on values that can raise *)

(** [v[k]] with a string key. *)
Definition py_getitem (v : pyval) (k : string) : result pyval :=
  match v with
  | PDict d =>
      match dict_lookup d k with
      | Some x => Returned x
      | None => Raised (mkExn KeyError ("'" ++ k ++ "'"))
      end
  | PList _ =>
      Raised (mkExn TypeError "list indices must be integers or slices, not str")
  | PStr _ =>
      Raised (mkExn TypeError "string indices must be integers, not 'str'")
  | _ =>
      Raised (mkExn TypeError
                ("'" ++ py_type_name v ++ "' object is not subscriptable"))
  end.

(** [v.get(k)]: only a [dict] has the method. *)
Definition py_get (v : pyval) (k : string) : result pyval :=
  match v with
  | PDict d =>
      Returned (match dict_lookup d k with Some x => x | None => PNone end)
  | _ =>
      Raised (mkExn AttributeError
                ("'" ++ py_type_name v ++ "' object has no attribute 'get'"))
  end.

(** The items a [for x in v] loop visits. *)
Definition py_iter (v : pyval) : result (list pyval) :=
  match v with
  | PList l => Returned l
  | PDict d => Returned (map (fun kv => PStr (fst kv)) d)
  | PStr s => Returned (str_chars s)
  | _ =>
      Raised (mkExn TypeError
                ("'" ++ py_type_name v ++ "' object is not iterable"))
  end.

(** ** The state and exception monad *)

(** A computation over a mutable state [S]: it ends in a value or in a raised
    exception, and the state it leaves holds every mutation made before. *)
Definition M (S A : Type) : Type := S -> result A * S.

Definition ret {S A} (a : A) : M S A := fun s => (Returned a, s).

Definition raise {S A} (e : exn) : M S A := fun s => (Raised e, s).

Definition bind {S A B} (m : M S A) (k : A -> M S B) : M S B :=
  fun s =>
    match m s with
    | (Returned a, s') => k a s'
    | (Raised e, s') => (Raised e, s')
    end.

Definition lift {S A} (r : result A) : M S A := fun s => (r, s).

Definition get_state {S} : M S S := fun s => (Returned s, s).

Definition modify {S} (f : S -> S) : M S unit := fun s => (Returned tt, f s).

Notation "x <- m ;; k" := (bind m (fun x => k))
  (at level 61, m at next level, right associativity).
Notation "m ;;; k" := (bind m (fun _ => k))
  (at level 61, right associativity).

(** A comprehension or [for] loop whose body can raise: left to right, it
    stops at the first exception. *)
Fixpoint for_each {A B} (f : A -> result B) (l : list A) : result (list B) :=
  match l with
  | [] => Returned []
  | x :: rest =>
      match f x with
      | Raised e => Raised e
      | Returned y =>
          match for_each f rest with
          | Raised e => Raised e
          | Returned ys => Returned (y :: ys)
          end
      end
  end.

(** [try: body except c1: h1 except c2: h2 ...]: the first clause whose
    class the exception is an instance of handles it; with none, it goes on
    propagating. *)
Fixpoint dispatch {S A} (clauses : list (exn_class * (exn -> A))) (e : exn)
  : M S A :=
  match clauses with
  | [] => raise e
  | (c, h) :: rest => if isinstance e c then ret (h e) else dispatch rest e
  end.

Definition try_except {S A} (body : M S A)
    (clauses : list (exn_class * (exn -> A))) : M S A :=
  fun s =>
    match body s with
    | (Returned a, s') => (Returned a, s')
    | (Raised e, s') => dispatch clauses e s'
    end.

(** ** The [requests] library, as far as the module uses it *)

(** A response.  [decoded] is what the JSON decoder makes of the body: the
    value, or the text of the decoding error. *)
Record Response : Type := mkResponse {
  status_code : Z;
  reason : string;
  url : string;
  text : string;
  decoded : string + pyval
}.

(** Modelled after [requests.Response.raise_for_status]: an [HTTPError] for
    a status from 400 to 599, and nothing for any other status. *)
Definition raise_for_status (r : Response) : result unit :=
  if ((400 <=? status_code r) && (status_code r <? 500))%Z then
    Raised (mkExn HTTPError
              (str_int (status_code r) ++ " Client Error: " ++ reason r
               ++ " for url: " ++ url r))
  else if ((500 <=? status_code r) && (status_code r <? 600))%Z then
    Raised (mkExn HTTPError
              (str_int (status_code r) ++ " Server Error: " ++ reason r
               ++ " for url: " ++ url r))
  else Returned tt.

(** Modelled after [requests.Response.ok]: whether [raise_for_status]
    passes. *)
Definition ok (r : Response) : bool :=
  match raise_for_status r with
  | Returned _ => true
  | Raised _ => false
  end.

(** Modelled after [requests.Response.json] (requests 2.27 and later): a
    body that does not decode raises [requests.exceptions.JSONDecodeError],
    which derives from [InvalidJSONError], a [RequestException], and from
    [json.JSONDecodeError]. *)
Definition Response_json (r : Response) : result pyval :=
  match decoded r with
  | inr v => Returned v
  | inl msg => Raised (mkExn RequestsJSONDecodeError msg)
  end.

(** The two entry points of [requests] the module calls. *)
Inductive requests_api : Type := via_post | via_request.

(** One call into [requests], as it goes out. *)
Record http_call : Type := mkCall {
  api : requests_api;
  call_method : string;
  call_url : string;
  call_kwargs : dict
}.

(** What a call comes back with: a response of any status, or an exception
    raised inside [requests] (connection refused, timeout, ...). *)
Inductive outcome : Type :=
| Responds (r : Response)
| Fails (e : exn).

(** ** The [pandas] frame of [run_sql] *)

Record DataFrame : Type := mkFrame {
  columns : list pyval;
  rows : list (list pyval)
}.

Definition widest (data : list (list pyval)) : nat :=
  fold_right (fun r w => Nat.max (length r) w) 0 data.

Definition pad_row (w : nat) (r : list pyval) : list pyval :=
  r ++ repeat PNone (w - length r).

(** Modelled after [pandas.DataFrame(data, columns=...)] on a list of row
    lists: no rows give an empty frame with the columns; otherwise short
    rows are filled up to the widest one, and a width that is not the
    number of columns raises [ValueError]. *)
Definition pd_DataFrame (data : list (list pyval)) (cols : list pyval)
  : result DataFrame :=
  match data with
  | [] => Returned (mkFrame cols [])
  | _ =>
      if (widest data =? length cols)%nat
      then Returned (mkFrame cols (map (pad_row (length cols)) data))
      else Raised (mkExn ValueError
                     (str_len (length cols) ++ " columns passed, passed data had "
                      ++ str_len (widest data) ++ " columns"))
  end.

(** [df.head(n)] and [len(df)]. *)
Definition df_head (n : nat) (df : DataFrame) : DataFrame :=
  mkFrame (columns df) (firstn n (rows df)).

Definition df_len (df : DataFrame) : nat := length (rows df).

(** ** What the module is run against *)

(** The world outside the module.  [network] answers a call given every
    call made before it, so it covers any server and any transport
    behaviour; [getenv] is the process environment after [load_dotenv];
    [py_repr] is the interpreter's [repr]; [json_dumps] is [json.dumps];
    [to_markdown] is [df.to_markdown(index=False, tablefmt='presto')]. *)
Class Runtime : Type := {
  network : list http_call -> http_call -> outcome;
  getenv : string -> option string;
  py_repr : pyval -> string;
  json_dumps : pyval -> string;
  to_markdown : DataFrame -> string
}.

(** A mutable object together with the calls that went out so far. *)
Record World (C : Type) : Type := mkWorld {
  obj : C;
  wire : list http_call
}.
Arguments mkWorld {C} obj wire.
Arguments obj {C} w.
Arguments wire {C} w.

(** ** DQClient *)

Record DQConfig : Type := mkConfig {
  base_url : option string;
  username : option string;
  password : option string;
  iss : option string
}.

Record DQClient : Type := mkClient {
  config : DQConfig;
  _token : pyval;
  _headers : pyval
}.

(** [DQClient.__init__]. *)
Definition __init__ (cfg : DQConfig) : DQClient := mkClient cfg PNone PNone.

(** A method runs on its instance and the wire. *)
Definition Sess : Type := World DQClient.
Definition self (s : Sess) : DQClient := obj s.

(** An environment value inside an f-string, and as a JSON value. *)
Definition fmt_opt (o : option string) : string :=
  match o with Some s => s | None => "None" end.

Definition val_opt (o : option string) : pyval :=
  match o with Some s => PStr s | None => PNone end.

Section Server.
Context {rt : Runtime}.

(** [str(v)], as an f-string formats a value. *)
Definition py_str (v : pyval) : string :=
  match v with PStr s => s | _ => py_repr v end.

(** [os.getenv(name, default)]. *)
Definition getenv_default (name default : string) : string :=
  match getenv name with Some v => v | None => default end.

(** A call goes out: it is put on the wire, and the network answers. *)
Definition transmit {C} (c : http_call) : M (World C) Response :=
  fun w =>
    let w' := mkWorld (obj w) (wire w ++ [c]) in
    match network (wire w) c with
    | Responds r => (Returned r, w')
    | Fails e => (Raised e, w')
    end.

Definition requests_post {C} (u : string) (kwargs : dict)
  : M (World C) Response :=
  transmit (mkCall via_post "POST" u kwargs).

Definition requests_request {C} (method u : string) (kwargs : dict)
  : M (World C) Response :=
  transmit (mkCall via_request method u kwargs).

(** The sign-in call of [_authenticate]. *)
Definition signin_call (cfg : DQConfig) : http_call :=
  mkCall via_post "POST" (fmt_opt (base_url cfg) ++ "/auth/signin")
    [("json", PDict [("username", val_opt (username cfg));
                     ("password", val_opt (password cfg));
                     ("iss", val_opt (iss cfg))]);
     ("headers", PDict [("Content-Type", PStr "application/json")]);
     ("verify", PBool false)].

(** The header set [_authenticate] derives from a token. *)
Definition auth_headers (token : pyval) : pyval :=
  PDict [("Content-Type", PStr "application/json");
         ("accept", PStr "application/json");
         ("Authorization", PStr ("Bearer " ++ py_str token))].

Definition set_token (v : pyval) : M Sess unit :=
  modify (fun s =>
    mkWorld (mkClient (config (self s)) v (_headers (self s))) (wire s)).

Definition set_headers (v : pyval) : M Sess unit :=
  modify (fun s =>
    mkWorld (mkClient (config (self s)) (_token (self s)) v) (wire s)).

(** [DQClient._authenticate]. *)
Definition _authenticate : M Sess unit :=
  s <- get_state ;;
  let c := signin_call (config (self s)) in
  response <- requests_post (call_url c) (call_kwargs c) ;;
  lift (raise_for_status response) ;;;
  token_json <- lift (Response_json response) ;;
  token <- lift (py_getitem token_json "token") ;;
  set_token token ;;;
  set_headers (auth_headers token).

(** The [headers] property. *)
Definition headers : M Sess pyval :=
  s <- get_state ;;
  (if is_None (_headers (self s)) then _authenticate else ret tt) ;;;
  s' <- get_state ;;
  ret (_headers (self s')).

(** [DQClient.request]. *)
Definition request (method endpoint : string) (kwargs : dict)
  : M Sess Response :=
  s <- get_state ;;
  let u := fmt_opt (base_url (config (self s))) ++ endpoint in
  let kwargs := dict_setdefault kwargs "verify" (PBool false) in
  h <- headers ;;
  let kwargs := dict_setitem kwargs "headers" h in
  response <- requests_request method u kwargs ;;
  if (status_code response =? 401)%Z then
    _authenticate ;;;
    h' <- headers ;;
    let kwargs := dict_setitem kwargs "headers" h' in
    requests_request method u kwargs
  else ret response.

Definition get (endpoint : string) (kwargs : dict) : M Sess Response :=
  request "GET" endpoint kwargs.

Definition post (endpoint : string) (kwargs : dict) : M Sess Response :=
  request "POST" endpoint kwargs.

Definition put (endpoint : string) (kwargs : dict) : M Sess Response :=
  request "PUT" endpoint kwargs.

(** ** The singleton and the call wrapper *)

(** The module's globals: [_client], and the wire. *)
Definition Globals : Type := World (option DQClient).
Definition _client (g : Globals) : option DQClient := obj g.

(** [get_client]: the first call builds the client from the environment. *)
Definition get_client : M Globals DQClient :=
  fun g =>
    match _client g with
    | Some c => (Returned c, g)
    | None =>
        let c := __init__ (mkConfig (getenv "DQ_URL") (getenv "DQ_USERNAME")
                                    (getenv "DQ_PASSWORD") (getenv "DQ_ISS")) in
        (Returned c, mkWorld (Some c) (wire g))
    end.

(** A method call on the singleton: the instance the method mutates is the
    one [_client] names. *)
Definition on_client {A} (c : DQClient) (m : M Sess A) : M Globals A :=
  fun g =>
    match m (mkWorld c (wire g)) with
    | (r, s') => (r, mkWorld (Some (self s')) (wire s'))
    end.

(** The two shapes of a call result. *)
Definition Success (data : pyval) : pyval :=
  PDict [("success", PBool true); ("data", data)].

Definition Failure (message : string) : pyval :=
  PDict [("success", PBool false); ("error", PStr message)].

(** The [except] clauses of [call_api], in the order they are written. *)
Definition call_api_clauses : list (exn_class * (exn -> pyval)) :=
  [ (ConnectionError, fun e => Failure ("Connection error: " ++ exn_str e));
    (Timeout, fun e => Failure ("Request timeout: " ++ exn_str e));
    (RequestException, fun e => Failure ("Request failed: " ++ exn_str e));
    (JSONDecodeError, fun e => Failure ("Invalid JSON response: " ++ exn_str e));
    (Exception_, fun e =>
       Failure ("Unexpected error: " ++ class_name (exn_type e) ++ ": "
                ++ exn_str e)) ].

(** [call_api]. *)
Definition call_api (method endpoint : string) (kwargs : dict)
  : M Globals pyval :=
  try_except
    (client <- get_client ;;
     response <- on_client client (request method endpoint kwargs) ;;
     if negb (ok response) then
       ret (Failure ("HTTP " ++ str_int (status_code response) ++ ": "
                     ++ str_prefix 500 (text response)))
     else
       data <- lift (Response_json response) ;;
       ret (Success data))
    call_api_clauses.

(** ** The tools *)

(** [get_recent_runs]. *)
Definition get_recent_runs : M Globals string :=
  r <- call_api "GET" "/v2/getrecentruns" [] ;;
  ret (json_dumps r).

(** The [except (KeyError, TypeError)] clause of [run_sql]. *)
Definition parse_failure (e : exn) : string :=
  json_dumps (Failure ("Failed to parse response: " ++ exn_str e)).

(** The cells of one row: [[item['colValue'] for item in row]]. *)
Definition row_cells (row : pyval) : result (list pyval) :=
  match py_iter row with
  | Raised e => Raised e
  | Returned items => for_each (fun item => py_getitem item "colValue") items
  end.

(** [run_sql]. *)
Definition run_sql (sql : string) : M Globals string :=
  let cxn := getenv_default "DQ_CXN" "BIGQUERY" in
  let params := PDict [("sql", PStr sql); ("cxn", PStr cxn)] in
  result <- call_api "POST" "/v2/getsqlresult" [("params", params)] ;;
  success <- lift (py_getitem result "success") ;;
  if negb (py_bool success) then ret (json_dumps result)
  else
    try_except
      (json_data <- lift (py_getitem result "data") ;;
       schema <- lift (py_getitem json_data "schema") ;;
       cols <- lift (py_iter schema) ;;
       column_names <- lift (for_each (fun col => py_getitem col "name") cols) ;;
       rows_json <- lift (py_getitem json_data "rows") ;;
       row_list <- lift (py_iter rows_json) ;;
       data_rows <- lift (for_each row_cells row_list) ;;
       df <- lift (pd_DataFrame data_rows column_names) ;;
       let markdown := "Results for: `" ++ sql ++ "`" ++ nl ++ nl in
       let markdown := markdown ++ to_markdown (df_head 10 df) in
       let markdown :=
         if (10 <? df_len df)%nat
         then markdown ++ nl ++ nl ++ "*Showing 10 of " ++ str_len (df_len df)
                       ++ " rows*"
         else markdown in
       ret markdown)
      [ (KeyError, parse_failure); (TypeError, parse_failure) ].

(** The entry [get_rules_by_dataset] builds for one rule. *)
Definition format_rule (r : pyval) : result pyval :=
  match py_get r "ruleNm" with
  | Raised e => Raised e
  | Returned name =>
  match py_get r "ruleValue" with
  | Raised e => Raised e
  | Returned sql =>
  match py_get r "ruleType" with
  | Raised e => Raised e
  | Returned type =>
  match py_get r "points" with
  | Raised e => Raised e
  | Returned points =>
      Returned (PDict [("name", name); ("sql", sql); ("type", type);
                       ("points", points)])
  end end end end.

(** [get_rules_by_dataset]. *)
Definition get_rules_by_dataset (dataset : string) : M Globals string :=
  result <- call_api "GET" ("/v3/rules/" ++ dataset) [] ;;
  success <- lift (py_getitem result "success") ;;
  if negb (py_bool success) then ret (json_dumps result)
  else
    rules <- lift (py_getitem result "data") ;;
    if negb (py_bool rules) then
      ret (json_dumps
             (PDict [("success", PBool true);
                     ("message",
                      PStr ("No rules found for dataset: " ++ dataset))]))
    else
      items <- lift (py_iter rules) ;;
      formatted <- lift (for_each format_rule items) ;;
      ret (json_dumps (PDict [("success", PBool true);
                              ("data", PList formatted)])).

(** [run_dq_job]. *)
Definition run_dq_job (dataset run_id sql : string) : M Globals string :=
  let cxn := getenv_default "DQ_CXN" "BIGQUERY" in
  let data :=
    PDict [("dataset", PStr dataset);
           ("runId", PStr run_id);
           ("pushdown", PDict [("sourceQuery", PStr sql);
                               ("connectionName", PStr cxn)]);
           ("agentId", PDict [("id", PInt 0)]);
           ("profile", PDict [("on", PBool false)])] in
  reg_result <- call_api "PUT" "/v3/datasetDefs" [("json", data)] ;;
  success <- lift (py_getitem reg_result "success") ;;
  if negb (py_bool success) then
    err <- lift (py_getitem reg_result "error") ;;
    ret (json_dumps
           (PDict [("success", PBool false);
                   ("error", PStr ("Registration failed: " ++ py_str err))]))
  else
    let params := PDict [("dataset", PStr dataset); ("runDate", PStr run_id)] in
    run_result <- call_api "POST" "/v3/jobs/run" [("params", params)] ;;
    ret (json_dumps run_result).

End Server.

(** ** The remaining tools *)

(** [len(v)]. *)
Definition py_len (v : pyval) : result nat :=
  match v with
  | PList l => Returned (length l)
  | PDict d => Returned (length d)
  | PStr s => Returned (String.length s)
  | _ =>
      Raised (mkExn TypeError
                ("object of type '" ++ py_type_name v ++ "' has no len()"))
  end.

(** [v.get(k, default)]: only a [dict] has the method. *)
Definition py_get_default (v : pyval) (k : string) (default : pyval)
  : result pyval :=
  match v with
  | PDict d =>
      Returned (match dict_lookup d k with Some x => x | None => default end)
  | _ =>
      Raised (mkExn AttributeError
                ("'" ++ py_type_name v ++ "' object has no attribute 'get'"))
  end.

Section MoreTools.
Context {rt : Runtime}.

(** The query parameters of [search_catalog]. *)
Definition search_params (search_string : string) (limit : Z) : pyval :=
  PDict [("draw", PStr "3");
         ("start", PStr "0");
         ("length", PStr (str_int limit));
         ("search[value]", PStr search_string);
         ("filterPushdownPullup", PStr "1");
         ("order[0][column]", PStr "0");
         ("order[0][dir]", PStr "asc");
         ("filterSource", PStr (getenv_default "DQ_CXN" "BIGQUERY"))].

(** [search_catalog]. *)
Definition search_catalog (search_string : string) (limit : Z)
  : M Globals string :=
  result <- call_api "GET" "/v2/getdataassetsarrforserversidewithmultifilters"
              [("params", search_params search_string limit)] ;;
  success <- lift (py_getitem result "success") ;;
  if negb (py_bool success) then ret (json_dumps result)
  else
    data <- lift (py_getitem result "data") ;;
    datasets <- lift (py_get_default data "dataAssetList" (PList [])) ;;
    count <- lift (py_len datasets) ;;
    ret (json_dumps (PDict [("success", PBool true);
                            ("count", PInt (Z.of_nat count));
                            ("data", datasets)])).

(** The entry [get_jobs_in_queue] builds for one job. *)
Definition job_summary (job : pyval) : result pyval :=
  match py_get job "dataset" with
  | Raised e => Raised e
  | Returned dataset =>
  match py_get job "runId" with
  | Raised e => Raised e
  | Returned run_id =>
  match py_get job "status" with
  | Raised e => Raised e
  | Returned status =>
      Returned (PDict [("dataset", dataset); ("runId", run_id);
                       ("status", status)])
  end end end.

(** [get_jobs_in_queue]. *)
Definition get_jobs_in_queue (limit : Z) (status : string)
  : M Globals string :=
  let params := PDict [("jobStatus", PStr status);
                       ("limit", PStr (str_int limit))] in
  result <- call_api "GET" "/v2/getowlcheckq" [("params", params)] ;;
  success <- lift (py_getitem result "success") ;;
  if negb (py_bool success) then ret (json_dumps result)
  else
    try_except
      (data <- lift (py_getitem result "data") ;;
       jobs <- lift (py_get_default data "data" (PList [])) ;;
       items <- lift (py_iter jobs) ;;
       summary <- lift (for_each job_summary items) ;;
       ret (json_dumps (PDict [("success", PBool true);
                               ("count", PInt (Z.of_nat (length summary)));
                               ("data", PList summary)])))
      [ (KeyError, parse_failure); (TypeError, parse_failure) ].

(** The body [save_rule] posts. *)
Definition rule_body (dataset rule_name rule_sql : string) (points perc : Z)
  : pyval :=
  PDict [("dataset", PStr dataset);
         ("ruleNm", PStr rule_name);
         ("ruleType", PStr "SQLF");
         ("ruleValue", PStr rule_sql);
         ("points", PInt points);
         ("ruleRepo", PStr "");
         ("perc", PInt perc);
         ("columnName", PStr "");
         ("businessCategory", PStr "");
         ("businessDesc", PStr "");
         ("dimId", PNone)].

(** [save_rule]. *)
Definition save_rule (dataset rule_name rule_sql : string) (points perc : Z)
  : M Globals string :=
  r <- call_api "POST" "/v3/rules"
         [("json", rule_body dataset rule_name rule_sql points perc)] ;;
  ret (json_dumps r).

(** [get_dataset_definition]. *)
Definition get_dataset_definition (dataset : string) : M Globals string :=
  r <- call_api "GET" "/v2/owl-options/get"
         [("params", PDict [("dataset", PStr dataset)])] ;;
  ret (json_dumps r).

(** [get_hoot_results]. *)
Definition get_hoot_results (dataset run_id : string) : M Globals string :=
  r <- call_api "GET" "/v2/gethoot"
         [("params", PDict [("dataset", PStr dataset);
                            ("runId", PStr run_id)])] ;;
  ret (json_dumps r).

(** [get_alerts]. *)
Definition get_alerts (dataset : string) : M Globals string :=
  r <- call_api "GET" "/v2/getalerts"
         [("params", PDict [("dataset", PStr dataset)])] ;;
  ret (json_dumps r).

(** The body [save_alert] posts: an empty message gives way to
    [<condition> for <dataset>]. *)
Definition alert_body (dataset alert_name condition email message : string)
  : pyval :=
  PDict [("dataset", PStr dataset);
         ("alertNm", PStr alert_name);
         ("alertCond", PStr condition);
         ("alertFormat", PStr "EMAIL");
         ("alertFormatValue", PStr email);
         ("alertMsg",
          PStr (if py_bool (PStr message) then message
                else condition ++ " for " ++ dataset));
         ("batchName", PStr "");
         ("addRuleDetails", PBool true);
         ("active", PBool true);
         ("alertTypes", PList [PStr "CONDITION"])].

(** [save_alert]. *)
Definition save_alert (dataset alert_name condition email message : string)
  : M Globals string :=
  r <- call_api "POST" "/v3/alerts"
         [("json", alert_body dataset alert_name condition email message)] ;;
  ret (json_dumps r).

End MoreTools.

(** * The vocabulary of the properties *)

(** A call result is one of the two shapes. *)
Definition is_call_result (v : pyval) : Prop :=
  (exists data, v = Success data) \/ (exists message, v = Failure message).

(** The JSON object [v] has the field [k], with value [x]. *)
Definition has_field (v : pyval) (k : string) (x : pyval) : Prop :=
  exists d, v = PDict d /\ dict_lookup d k = Some x.

(** The value of a field of a JSON object, [null] when it has none. *)
Definition field_or_null (d : dict) (k : string) : pyval :=
  match dict_lookup d k with Some x => x | None => PNone end.

(** The entry of the rules tool for one rule of the backend. *)
Definition rule_entry (rule : dict) : pyval :=
  PDict [("name", field_or_null rule "ruleNm");
         ("sql", field_or_null rule "ruleValue");
         ("type", field_or_null rule "ruleType");
         ("points", field_or_null rule "points")].

(** The payload of a SQL result: [schema] lists one object per column, its
    name in the field [name]; [rows] lists the rows, each a list of
    objects with the cell in the field [colValue]. *)
Definition sql_payload (json_data : pyval) (names : list pyval)
    (cells : list (list pyval)) : Prop :=
  exists schema row_list,
    has_field json_data "schema" (PList schema)
    /\ Forall2 (fun col n => has_field col "name" n) schema names
    /\ has_field json_data "rows" (PList row_list)
    /\ Forall2 (fun row cs =>
                  exists items,
                    row = PList items
                    /\ Forall2 (fun item v => has_field item "colValue" v)
                         items cs)
         row_list cells.

(** Every row has one cell per column. *)
Definition rectangular (names : list pyval) (cells : list (list pyval))
  : Prop :=
  Forall (fun r => length r = length names) cells.

(** What a sign-in exchange comes to: the value of the [token] field of the
    answer, or the exception that ends the exchange. *)
Definition signin_result (o : outcome) : result pyval :=
  match o with
  | Fails e => Raised e
  | Responds r =>
      match raise_for_status r with
      | Raised e => Raised e
      | Returned _ =>
          match Response_json r with
          | Raised e => Raised e
          | Returned token_json => py_getitem token_json "token"
          end
      end
  end.

(** The statuses [response.ok] accepts, which is the test [call_api]
    makes: every status but 400 to 599, wider than the 2xx statuses. *)
Definition in_success_range (status : Z) : Prop :=
  ~ (400 <= status < 600)%Z.

(** A response as the caller of [request] gets it, or the exception. *)
Definition delivered (o : outcome) : result Response :=
  match o with
  | Responds r => Returned r
  | Fails e => Raised e
  end.

(** The calls among [after] that went out since [before], and those of them
    made through [requests.request]: the attempts at the caller's request, as
    opposed to sign-ins. *)
Definition since (before after : list http_call) : list http_call :=
  skipn (length before) after.

Definition is_attempt (c : http_call) : bool :=
  match api c with via_request => true | via_post => false end.

Definition attempts (before after : list http_call) : list http_call :=
  filter is_attempt (since before after).

(** The same state with one more call on the wire. *)
Definition sent {C} (w : World C) (c : http_call) : World C :=
  mkWorld (obj w) (wire w ++ [c]).

Section Vocabulary.
Context {rt : Runtime}.

(** The first attempt [request] makes once it holds the headers [h]. *)
Definition first_attempt (cfg : DQConfig) (method endpoint : string)
    (kwargs : dict) (h : pyval) : http_call :=
  mkCall via_request method (fmt_opt (base_url cfg) ++ endpoint)
    (dict_setitem (dict_setdefault kwargs "verify" (PBool false)) "headers" h).

(** The operations of a [DQClient] instance. *)
Inductive operation : Type :=
| call_authenticate
| read_headers
| call_request (method endpoint : string) (kwargs : dict)
| call_get (endpoint : string) (kwargs : dict)
| call_post (endpoint : string) (kwargs : dict)
| call_put (endpoint : string) (kwargs : dict).

(** The state an operation leaves, whether it returns or raises. *)
Definition perform (o : operation) (s : Sess) : Sess :=
  match o with
  | call_authenticate => snd (_authenticate s)
  | read_headers => snd (headers s)
  | call_request m e k => snd (request m e k s)
  | call_get e k => snd (get e k s)
  | call_post e k => snd (post e k s)
  | call_put e k => snd (put e k s)
  end.

(** The states of an instance built from [cfg]: the one [__init__] leaves,
    and those any sequence of operations leads to. *)
Inductive reachable (cfg : DQConfig) : Sess -> Prop :=
| reach_init (w : list http_call) : reachable cfg (mkWorld (__init__ cfg) w)
| reach_step (s : Sess) (o : operation) :
    reachable cfg s -> reachable cfg (perform o s).

(** What [call_api] gets from the client: the outcome of
    [client.request(method, endpoint, **kwargs)] on the singleton. *)
Definition client_outcome (method endpoint : string) (kwargs : dict)
  : M Globals Response :=
  client <- get_client ;;
  on_client client (request method endpoint kwargs).

(** How an instance can differ from what it was: not at all, or by the
    token of some sign-in answer and the headers derived from it. *)
Inductive evolved (c : DQClient) : DQClient -> Prop :=
| evolved_same : evolved c c
| evolved_signed_in (history : list http_call) (token : pyval) :
    signin_result (network history (signin_call (config c))) = Returned token ->
    evolved c (mkClient (config c) token (auth_headers token)).

(** The ways a sign-in exchange fails, each with the exception it raises:
    the transport fails; the status is one of 400 to 599; the body does not
    decode; the decoded body has no [token] field. *)
Inductive signin_failure : outcome -> exn -> Prop :=
| transport_failure (e : exn) : signin_failure (Fails e) e
| error_status (r : Response) (e : exn) :
    (400 <= status_code r < 600)%Z ->
    raise_for_status r = Raised e ->
    signin_failure (Responds r) e
| undecodable_body (r : Response) (msg : string) :
    ~ (400 <= status_code r < 600)%Z ->
    decoded r = inl msg ->
    signin_failure (Responds r) (mkExn RequestsJSONDecodeError msg)
| missing_token (r : Response) (body : pyval) (e : exn) :
    ~ (400 <= status_code r < 600)%Z ->
    decoded r = inr body ->
    (forall token, ~ has_field body "token" token) ->
    py_getitem body "token" = Raised e ->
    signin_failure (Responds r) e.

(** The configuration of the singleton: the one it has, or the one
    [get_client] is about to read from the environment. *)
Definition client_config (g : Globals) : DQConfig :=
  match _client g with
  | Some c => config c
  | None => mkConfig (getenv "DQ_URL") (getenv "DQ_USERNAME")
                     (getenv "DQ_PASSWORD") (getenv "DQ_ISS")
  end.

(** The URL of an endpoint of the backend. *)
Definition endpoint_url (g : Globals) (endpoint : string) : string :=
  fmt_opt (base_url (client_config g)) ++ endpoint.

(** The body [run_dq_job] registers a dataset with, and the parameters it
    runs the job with. *)
Definition registration_body (dataset run_id sql : string) : pyval :=
  PDict [("dataset", PStr dataset);
         ("runId", PStr run_id);
         ("pushdown",
          PDict [("sourceQuery", PStr sql);
                 ("connectionName",
                  PStr (getenv_default "DQ_CXN" "BIGQUERY"))]);
         ("agentId", PDict [("id", PInt 0)]);
         ("profile", PDict [("on", PBool false)])].

Definition job_run_params (dataset run_id : string) : pyval :=
  PDict [("dataset", PStr dataset); ("runDate", PStr run_id)].

(** No sign-in answer of the network carries a null token. *)
Definition tokens_not_null : Prop :=
  forall history cfg,
    signin_result (network history (signin_call cfg)) <> Returned PNone.

End Vocabulary.

(** ** Further vocabulary *)


(** The sign-ins among the calls on a wire. *)
Definition is_signin (c : http_call) : bool := negb (is_attempt c).

(** The entry of the queue tool for one job of the backend. *)
Definition job_entry (job : dict) : pyval :=
  PDict [("dataset", field_or_null job "dataset");
         ("runId", field_or_null job "runId");
         ("status", field_or_null job "status")].

(** A value is a JSON object. *)
Definition is_object (v : pyval) : bool :=
  match v with PDict _ => true | _ => false end.

(** A value has a length: a list, an object or a string. *)
Definition is_sized (v : pyval) : bool :=
  match v with PList _ | PDict _ | PStr _ => true | _ => false end.

Section MoreVocabulary.
Context {rt : Runtime}.

(** A tool that hands on what one [call_api] returns: the call returns a
    call result, and the tool returns its JSON text, in the state the call
    left. *)
Definition hands_on_call (tool : M Globals string) (method endpoint : string)
    (kwargs : dict) (g : Globals) : Prop :=
  exists v g',
    call_api method endpoint kwargs g = (Returned v, g')
    /\ is_call_result v
    /\ tool g = (Returned (json_dumps v), g').

(** The options of the calls the tools make. *)
Definition sql_options (sql : string) : dict :=
  [("params", PDict [("sql", PStr sql);
                     ("cxn", PStr (getenv_default "DQ_CXN" "BIGQUERY"))])].

Definition queue_options (limit : Z) (status : string) : dict :=
  [("params", PDict [("jobStatus", PStr status);
                     ("limit", PStr (str_int limit))])].

Definition catalog_options (search_string : string) (limit : Z) : dict :=
  [("params", search_params search_string limit)].

End MoreVocabulary.

(** A value a [for] loop can run over: a list, an object or a string. *)
Definition is_iterable (v : pyval) : bool :=
  match v with PList _ | PDict _ | PStr _ => true | _ => false end.

(** * Scenarios *)

(** Concrete runtimes, to run the module on.  The network answers from a
    script, one entry per call in the order the calls go out, and refuses
    the connection once the script is used up.  The environment holds the
    four [DQ_] variables.  [sample_repr], [sample_dumps] and
    [sample_markdown] are stand-ins for the interpreter and the libraries:
    the properties below hold for every runtime and do not rely on them. *)

Definition quote : string := String (ascii_of_nat 34) EmptyString.

Definition refused : outcome :=
  Fails (mkExn ConnectionError "Connection refused").

Definition scripted (answers : list outcome)
  : list http_call -> http_call -> outcome :=
  fun history _ => nth (length history) answers refused.

Definition sample_env (name : string) : option string :=
  if name =? "DQ_URL" then Some "https://dq.example"
  else if name =? "DQ_USERNAME" then Some "alice"
  else if name =? "DQ_PASSWORD" then Some "secret"
  else if name =? "DQ_ISS" then Some "public"
  else None.

Definition sample_config : DQConfig :=
  mkConfig (Some "https://dq.example") (Some "alice") (Some "secret")
           (Some "public").

Fixpoint join (sep : string) (l : list string) : string :=
  match l with
  | [] => ""
  | [x] => x
  | x :: rest => x ++ sep ++ join sep rest
  end.

Fixpoint sample_dumps (v : pyval) : string :=
  match v with
  | PNone => "null"
  | PBool true => "true"
  | PBool false => "false"
  | PInt z => str_int z
  | PFloat _ => "<float>"
  | PStr s => quote ++ s ++ quote
  | PList l => "[" ++ join ", " (map sample_dumps l) ++ "]"
  | PDict d =>
      "{" ++ join ", " (map (fun kv => quote ++ fst kv ++ quote ++ ": "
                                       ++ sample_dumps (snd kv)) d) ++ "}"
  end.

Definition sample_repr (v : pyval) : string :=
  match v with
  | PNone => "None"
  | PBool true => "True"
  | PBool false => "False"
  | _ => sample_dumps v
  end.

Definition sample_cell (v : pyval) : string :=
  match v with PStr s => s | _ => sample_repr v end.

Definition sample_markdown (df : DataFrame) : string :=
  join nl (map (fun r => " " ++ join " | " (map sample_cell r))
               (columns df :: rows df)).

Definition runtime_of (answers : list outcome) : Runtime :=
  {| network := scripted answers;
     getenv := sample_env;
     py_repr := sample_repr;
     json_dumps := sample_dumps;
     to_markdown := sample_markdown |}.

(** A response with a JSON body, and one whose body does not decode. *)
Definition json_response (status : Z) (v : pyval) : Response :=
  mkResponse status "" "https://dq.example" (sample_dumps v) (inr v).

Definition text_response (status : Z) (body : string) : Response :=
  mkResponse status "" "https://dq.example" body
    (inl "Expecting value: line 1 column 1 (char 0)").

Definition signin_ok (token : string) : outcome :=
  Responds (json_response 200 (PDict [("token", PStr token)])).

(** The module before the first call, and a fresh instance. *)
Definition fresh : Globals := mkWorld None [].

Definition fresh_client : Sess := mkWorld (__init__ sample_config) [].

(** The server signs the client in and then answers a request with a page
    that is not JSON, under status 200. *)
Definition html_answers : list outcome :=
  [signin_ok "abc"; Responds (text_response 200 "<html>Sign in</html>")].

(** The server signs the client in and then answers with status 500. *)
Definition error_answers : list outcome :=
  [signin_ok "abc"; Responds (text_response 500 "Internal Server Error")].

Definition error_globals : Globals :=
  Eval vm_compute in
    snd (@client_outcome (runtime_of error_answers) "GET" "/v2/getrecentruns"
           [] fresh).

(** The server answers the sign-in with [{"token": null}]. *)
Definition null_token_answers : list outcome :=
  [Responds (json_response 200 (PDict [("token", PNone)]))].

(** The server answers the sign-in with status 300 and a token. *)
Definition multiple_choices_answers : list outcome :=
  [Responds (json_response 300 (PDict [("token", PStr "abc")]))].

(** The token expires: after the sign-in the request meets a 401, and the
    second sign-in is answered with [{"token": null}]; the retried request
    then passes. *)
Definition expiry_null_answers : list outcome :=
  [signin_ok "abc";
   Responds (text_response 401 "Unauthorized");
   Responds (json_response 200 (PDict [("token", PNone)]));
   Responds (json_response 200 (PList []))].

(** The token expires and the service is gone when the client signs in
    again. *)
Definition expiry_down_answers : list outcome :=
  [signin_ok "abc"; Responds (text_response 401 "Unauthorized")].

(** The instance once [_authenticate] has run on it. *)
Definition signed_in (answers : list outcome) : Sess :=
  @perform (runtime_of answers) call_authenticate fresh_client.

(** A SQL result with the schema [a], [b] and twelve rows. *)
Definition twelve_rows : list (list pyval) :=
  map (fun i => [PInt i; PStr "x"])
      [1; 2; 3; 4; 5; 6; 7; 8; 9; 10; 11; 12]%Z.

Definition twelve_row_payload : pyval :=
  PDict [("schema", PList [PDict [("name", PStr "a")];
                           PDict [("name", PStr "b")]]);
         ("rows",
          PList (map (fun r =>
                        PList (map (fun v => PDict [("colValue", v)]) r))
                     twelve_rows))].

Definition sql_answers : list outcome :=
  [signin_ok "abc"; Responds (json_response 200 twelve_row_payload)].

Definition sql_globals : Globals :=
  Eval vm_compute in
    snd (@client_outcome (runtime_of sql_answers) "POST" "/v2/getsqlresult"
           [("params", PDict [("sql", PStr "select a, b from t");
                              ("cxn", PStr "BIGQUERY")])] fresh).

(** A rules response with one rule. *)
Definition one_rule : dict :=
  [("ruleNm", PStr "r1"); ("ruleValue", PStr "select 1");
   ("ruleType", PStr "SQLF"); ("points", PInt 5)].

Definition rules_answers : list outcome :=
  [signin_ok "abc"; Responds (json_response 200 (PList [PDict one_rule]))].

Definition rules_globals : Globals :=
  Eval vm_compute in
    snd (@client_outcome (runtime_of rules_answers) "GET" "/v3/rules/sales"
           [] fresh).

(** The token expires and the fresh one is refused as well: two 401s. *)
Definition double_401_answers : list outcome :=
  [signin_ok "abc";
   Responds (text_response 401 "Unauthorized");
   signin_ok "def";
   Responds (text_response 401 "Unauthorized again")].

(** The registration of a dataset meets a server error. *)
Definition registration_down_answers : list outcome :=
  [signin_ok "abc"; Responds (text_response 500 "boom")].

(** The server signs the client in and then answers with status 300 and a
    JSON body. *)
Definition status_300_answers : list outcome :=
  [signin_ok "abc"; Responds (json_response 300 (PList []))].

Definition status_300_globals : Globals :=
  Eval vm_compute in
    snd (@client_outcome (runtime_of status_300_answers) "GET"
           "/v2/getrecentruns" [] fresh).

(** ** Further scenarios *)

(** The server signs the client in and answers the request that follows
    with status 200 and the JSON value [v]. *)
Definition answers_with (v : pyval) : list outcome :=
  [signin_ok "abc"; Responds (json_response 200 v)].

(** The module after one call on the fresh singleton. *)
Definition after_call (answers : list outcome) (method endpoint : string)
    (kwargs : dict) : Globals :=
  snd (@client_outcome (runtime_of answers) method endpoint kwargs fresh).

(** A SQL payload without a schema, and one whose row is wider than its
    one column. *)
Definition no_schema_payload : pyval := PDict [("rows", PList [])].

Definition wide_row_payload : pyval :=
  PDict [("schema", PList [PDict [("name", PStr "a")]]);
         ("rows", PList [PList [PDict [("colValue", PInt 1)];
                                PDict [("colValue", PInt 2)]]])].

(** A catalog payload with two data assets, and one whose list is null. *)
Definition two_assets : list pyval :=
  [PDict [("dataset", PStr "sales")]; PDict [("dataset", PStr "stock")]].

Definition null_assets_payload : pyval := PDict [("dataAssetList", PNone)].

(** A queue payload with one job, which carries more than the summary
    keeps. *)
Definition one_job : dict :=
  [("dataset", PStr "sales"); ("runId", PStr "2025-01-23");
   ("status", PStr "RUNNING"); ("agent", PInt 7)].

(** * Properties *)

(** ** Classes and clauses *)

Lemma isinstance_Exception (e : exn) : isinstance e Exception_ = true.
Proof.
  destruct e as [c msg]; destruct c; reflexivity.
Qed.

(** Whatever is raised inside [call_api], one of its clauses turns it into
    a failure result. *)
Lemma dispatch_call_api_clauses {S} (e : exn) (s : S) :
  exists msg, dispatch call_api_clauses e s = (Returned (Failure msg), s).
Proof.
  unfold call_api_clauses; cbn [dispatch].
  repeat match goal with
         | |- context [if isinstance e ?c then _ else _] =>
             destruct (isinstance e c) eqn:?
         end;
    try (eexists; reflexivity).
  rewrite isinstance_Exception in *; discriminate.
Qed.

Lemma since_app (w new : list http_call) : since w (w ++ new) = new.
Proof.
  unfold since. induction w as [|c w IH]; [reflexivity | exact IH].
Qed.

Lemma attempts_app (w new : list http_call) :
  attempts w (w ++ new) = filter is_attempt new.
Proof.
  unfold attempts. now rewrite since_app.
Qed.

Lemma str_prefix_length (n : nat) (s : string) :
  String.length (str_prefix n s) <= n.
Proof.
  unfold str_prefix. revert s.
  induction n as [|n IH]; intros [|c s]; cbn; try lia.
  specialize (IH s). lia.
Qed.

Lemma str_prefix_is_prefix (n : nat) (s : string) :
  prefix (str_prefix n s) s = true.
Proof.
  unfold str_prefix. revert s.
  induction n as [|n IH]; intros [|c s]; cbn; try reflexivity.
  destruct (ascii_dec c c); [apply IH | contradiction].
Qed.

Lemma append_inv_head (s a b : string) : s ++ a = s ++ b -> a = b.
Proof.
  induction s as [|c s IH]; cbn; [auto|].
  intros [= H]. auto.
Qed.

Lemma has_field_getitem (v : pyval) (k : string) (x : pyval) :
  has_field v k x -> py_getitem v k = Returned x.
Proof.
  intros (d & -> & H). cbn. now rewrite H.
Qed.

Lemma for_each_Forall2 {A B} (f : A -> result B) (l : list A) (l' : list B) :
  Forall2 (fun x y => f x = Returned y) l l' -> for_each f l = Returned l'.
Proof.
  induction 1 as [|x y l l' Hx _ IH]; cbn; [reflexivity|].
  now rewrite Hx, IH.
Qed.

Lemma row_cells_payload (row : pyval) (cs : list pyval) :
  (exists items,
     row = PList items
     /\ Forall2 (fun item v => has_field item "colValue" v) items cs) ->
  row_cells row = Returned cs.
Proof.
  intros (items & -> & H). unfold row_cells; cbn [py_iter].
  apply for_each_Forall2.
  eapply Forall2_impl; [|exact H]. cbv beta; intros.
  now apply has_field_getitem.
Qed.

Lemma widest_rectangular (w : nat) (r : list pyval) (data : list (list pyval)) :
  Forall (fun r => length r = w) (r :: data) -> widest (r :: data) = w.
Proof.
  revert r. induction data as [|r' data IH]; intros r H.
  - inversion H; subst. cbn. lia.
  - inversion H as [|? ? Hr Hrest]; subst.
    change (widest (r :: r' :: data))
      with (Nat.max (length r) (widest (r' :: data))).
    rewrite (IH r' Hrest). inversion Hrest; subst. lia.
Qed.

Lemma pad_rectangular (w : nat) (data : list (list pyval)) :
  Forall (fun r => length r = w) data -> map (pad_row w) data = data.
Proof.
  induction 1 as [|r data Hr _ IH]; cbn; [reflexivity|].
  rewrite IH. unfold pad_row. rewrite Hr, Nat.sub_diag. cbn.
  now rewrite app_nil_r.
Qed.

(** On rows that have a cell per column the frame holds the rows as they
    are. *)
Lemma pd_DataFrame_rectangular (names : list pyval) (cells : list (list pyval)) :
  rectangular names cells ->
  pd_DataFrame cells names = Returned (mkFrame names cells).
Proof.
  unfold rectangular, pd_DataFrame. intros H.
  destruct cells as [|r cells]; [reflexivity|].
  rewrite (widest_rectangular _ _ _ H), Nat.eqb_refl.
  now rewrite (pad_rectangular _ _ H).
Qed.

Lemma format_rule_dict (rule : dict) :
  format_rule (PDict rule) = Returned (rule_entry rule).
Proof. reflexivity. Qed.

Lemma for_each_format_rule (rules : list dict) :
  for_each format_rule (map PDict rules) = Returned (map rule_entry rules).
Proof.
  induction rules as [|r rules IH]; [reflexivity|].
  cbn [map for_each]. now rewrite format_rule_dict, IH.
Qed.

(** [raise_for_status] raises for the statuses 400 to 599 and no other,
    and what it raises is an [HTTPError]. *)
Lemma raise_for_status_raises (r : Response) :
  (400 <= status_code r < 600)%Z ->
  exists msg, raise_for_status r = Raised (mkExn HTTPError msg).
Proof.
  intros H. unfold raise_for_status.
  destruct (Z.leb_spec 400 (status_code r)); [|lia].
  destruct (Z.ltb_spec (status_code r) 500); cbn [andb].
  - eexists; reflexivity.
  - destruct (Z.leb_spec 500 (status_code r)); [|lia].
    destruct (Z.ltb_spec (status_code r) 600); [|lia].
    eexists; reflexivity.
Qed.

Lemma raise_for_status_passes (r : Response) :
  ~ (400 <= status_code r < 600)%Z -> raise_for_status r = Returned tt.
Proof.
  intros H. unfold raise_for_status.
  destruct (Z.leb_spec 400 (status_code r));
    destruct (Z.ltb_spec (status_code r) 500);
    destruct (Z.leb_spec 500 (status_code r));
    destruct (Z.ltb_spec (status_code r) 600);
    cbn [andb]; try reflexivity; lia.
Qed.

Lemma ok_false_iff (r : Response) :
  ok r = false <-> (400 <= status_code r < 600)%Z.
Proof.
  unfold ok. split.
  - intros H.
    destruct (Z_le_dec 400 (status_code r));
      destruct (Z_lt_dec (status_code r) 600); try lia;
      rewrite raise_for_status_passes in H by lia; discriminate.
  - intros H. destruct (raise_for_status_raises r H) as [msg ->]. reflexivity.
Qed.

(** ** The client, step by step *)

Section ClientSteps.
Context {rt : Runtime}.

(** [_authenticate] makes the sign-in call and nothing else on the wire;
    when the exchange fails it raises and leaves the instance as it was, and
    when it succeeds it sets the token and the headers derived from it. *)
Lemma authenticate_eq (s : Sess) :
  let c := signin_call (config (self s)) in
  _authenticate s =
    match signin_result (network (wire s) c) with
    | Raised e => (Raised e, sent s c)
    | Returned token =>
        (Returned tt,
         mkWorld (mkClient (config (self s)) token (auth_headers token))
                 (wire s ++ [c]))
    end.
Proof.
  cbv zeta. unfold _authenticate, bind, get_state, requests_post, transmit,
    lift, signin_result, sent.
  cbn [call_url call_kwargs signin_call].
  fold (signin_call (config (self s))).
  destruct (network (wire s) (signin_call (config (self s)))) as [r | e];
    [|reflexivity].
  destruct (raise_for_status r) as [[] | e]; [|reflexivity].
  destruct (Response_json r) as [j | e]; [|reflexivity].
  destruct (py_getitem j "token") as [t | e]; reflexivity.
Qed.

(** The [headers] property signs in only when no headers are cached. *)
Lemma headers_eq (s : Sess) :
  headers s =
    if is_None (_headers (self s))
    then match _authenticate s with
         | (Returned _, s') => (Returned (_headers (self s')), s')
         | (Raised e, s') => (Raised e, s')
         end
    else (Returned (_headers (self s)), s).
Proof.
  unfold headers, bind, get_state.
  destruct (is_None (_headers (self s))).
  - destruct (_authenticate s) as [[[] | e] s']; reflexivity.
  - reflexivity.
Qed.

(** After [_authenticate] returns, headers are cached: what it cached is
    derived from the token it cached, the configuration is the one it
    started with and the sign-in call is all that went out. *)
Lemma authenticate_returned (s s' : Sess) (u : unit) :
  _authenticate s = (Returned u, s') ->
  _headers (self s') = auth_headers (_token (self s'))
  /\ config (self s') = config (self s)
  /\ wire s' = (wire s ++ [signin_call (config (self s))])%list
  /\ signin_result (network (wire s) (signin_call (config (self s))))
     = Returned (_token (self s')).
Proof.
  rewrite authenticate_eq; cbv zeta.
  destruct (signin_result _) as [t | e]; [|discriminate].
  intros [= _ <-]. cbn. auto.
Qed.

Lemma authenticate_raised (s s' : Sess) (e : exn) :
  _authenticate s = (Raised e, s') ->
  s' = sent s (signin_call (config (self s)))
  /\ signin_result (network (wire s) (signin_call (config (self s))))
     = Raised e.
Proof.
  rewrite authenticate_eq; cbv zeta.
  destruct (signin_result _) as [t | e']; [discriminate|].
  intros [= -> <-]. auto.
Qed.

(** What [headers] puts on the wire is never an attempt at a request, and
    it leaves the configuration alone. *)
Lemma headers_wire (s : Sess) :
  exists pre, wire (snd (headers s)) = (wire s ++ pre)%list
              /\ filter is_attempt pre = []
              /\ config (self (snd (headers s))) = config (self s).
Proof.
  rewrite headers_eq. destruct (is_None (_headers (self s))).
  - rewrite authenticate_eq; cbv zeta.
    exists [signin_call (config (self s))].
    destruct (signin_result _); cbn; auto.
  - exists []. cbn. rewrite app_nil_r. auto.
Qed.

(** [request], attempt by attempt. *)
Lemma request_eq (method endpoint : string) (kwargs : dict) (s : Sess) :
  request method endpoint kwargs s =
    match headers s with
    | (Raised e, s1) => (Raised e, s1)
    | (Returned h, s1) =>
        let c1 := first_attempt (config (self s)) method endpoint kwargs h in
        match network (wire s1) c1 with
        | Fails e => (Raised e, sent s1 c1)
        | Responds r1 =>
            if (status_code r1 =? 401)%Z then
              match _authenticate (sent s1 c1) with
              | (Raised e, s2) => (Raised e, s2)
              | (Returned _, s2) =>
                  let c2 := mkCall via_request method (call_url c1)
                              (dict_setitem (call_kwargs c1) "headers"
                                 (_headers (self s2))) in
                  (delivered (network (wire s2) c2), sent s2 c2)
              end
            else (Returned r1, sent s1 c1)
        end
    end.
Proof.
  unfold request at 1. unfold bind at 1. unfold get_state at 1.
  unfold bind at 1.
  destruct (headers s) as [[h | e] s1]; [|reflexivity].
  cbv zeta. unfold bind at 1. unfold requests_request at 1, transmit at 1.
  unfold first_attempt, sent.
  destruct (network (wire s1) _) as [r1 | e]; [|reflexivity].
  destruct (status_code r1 =? 401)%Z; [|reflexivity].
  unfold bind at 1.
  match goal with |- context [_authenticate ?x] =>
    destruct (_authenticate x) as [[[] | e] s2] eqn:Hauth end;
    [|reflexivity].
  apply authenticate_returned in Hauth as (Hh & _ & _ & _).
  unfold bind at 1. rewrite headers_eq, Hh. cbn [is_None auth_headers].
  unfold requests_request, transmit. cbn [call_url call_kwargs].
  rewrite <- Hh.
  destruct (network (wire s2) _); reflexivity.
Qed.

(** Every attempt of a [request] carries its method and goes to its
    endpoint. *)
Lemma request_attempts (method endpoint : string) (kwargs : dict) (s : Sess) :
  Forall (fun c => call_method c = method
                   /\ call_url c
                      = fmt_opt (base_url (config (self s))) ++ endpoint)
    (attempts (wire s) (wire (snd (request method endpoint kwargs s)))).
Proof.
  rewrite request_eq.
  destruct (headers_wire s) as (pre & Hpre & Hfil & _).
  destruct (headers s) as [[h | e] s1]; cbn [snd] in Hpre.
  2:{ cbn [snd]. rewrite Hpre, attempts_app, Hfil. constructor. }
  cbv zeta.
  set (c1 := first_attempt (config (self s)) method endpoint kwargs h).
  assert (Hone : attempts (wire s) (wire (sent s1 c1)) = [c1]).
  { cbn [sent wire]. rewrite Hpre, <- app_assoc, attempts_app, filter_app, Hfil.
    reflexivity. }
  assert (Hc1 : Forall (fun c => call_method c = method
                   /\ call_url c
                      = fmt_opt (base_url (config (self s))) ++ endpoint) [c1])
    by (repeat constructor).
  destruct (network (wire s1) c1) as [r1 | e];
    [|cbn [snd]; rewrite Hone; exact Hc1].
  destruct (status_code r1 =? 401)%Z; [|cbn [snd]; rewrite Hone; exact Hc1].
  destruct (_authenticate (sent s1 c1)) as [[[] | e] s2] eqn:Hauth.
  - destruct (authenticate_returned _ _ _ Hauth) as (_ & _ & Hw & _).
    cbn [snd sent wire]. rewrite Hw. cbn [sent wire]. rewrite Hpre.
    rewrite <- !app_assoc, attempts_app, !filter_app, Hfil.
    repeat constructor.
  - destruct (authenticate_raised _ _ _ Hauth) as (-> & _).
    cbn [snd sent wire obj]. rewrite Hpre.
    rewrite <- !app_assoc, attempts_app, !filter_app, Hfil.
    repeat constructor.
Qed.

Lemma evolved_trans (a b c : DQClient) :
  evolved a b -> evolved b c -> evolved a c.
Proof.
  intros Hab Hbc. destruct Hbc as [|h t Ht]; [exact Hab|].
  assert (Hcfg : config b = config a) by (destruct Hab; reflexivity).
  rewrite Hcfg in *. econstructor; exact Ht.
Qed.

Lemma authenticate_evolved (s : Sess) :
  evolved (self s) (self (snd (_authenticate s))).
Proof.
  rewrite authenticate_eq; cbv zeta.
  destruct (signin_result _) as [t | e] eqn:Hs; cbn.
  - econstructor; exact Hs.
  - constructor.
Qed.

Lemma headers_evolved (s : Sess) :
  evolved (self s) (self (snd (headers s))).
Proof.
  rewrite headers_eq. destruct (is_None (_headers (self s))).
  - pose proof (authenticate_evolved s) as H.
    destruct (_authenticate s) as [[[] | e] s']; exact H.
  - constructor.
Qed.

Lemma request_evolved (method endpoint : string) (kwargs : dict) (s : Sess) :
  evolved (self s) (self (snd (request method endpoint kwargs s))).
Proof.
  rewrite request_eq. pose proof (headers_evolved s) as H1.
  destruct (headers s) as [[h | e] s1]; cbn [snd] in *; [|exact H1].
  cbv zeta.
  destruct (network (wire s1) _) as [r1 | e]; [|exact H1].
  destruct (status_code r1 =? 401)%Z; [|exact H1].
  match goal with |- context [_authenticate ?x] =>
    pose proof (authenticate_evolved x) as H2;
    destruct (_authenticate x) as [[[] | e] s2] end;
    cbn [snd sent obj self] in *; eapply evolved_trans; eauto.
Qed.

(** Every operation leaves the instance as it was or as a sign-in made it. *)
Lemma perform_evolved (o : operation) (s : Sess) :
  evolved (self s) (self (perform o s)).
Proof.
  destruct o; cbn [perform]; unfold get, post, put;
    auto using authenticate_evolved, headers_evolved, request_evolved.
Qed.

(** A failed sign-in exchange, in terms of [signin_result]. *)
Lemma signin_failure_result (o : outcome) (e : exn) :
  signin_failure o e -> signin_result o = Raised e.
Proof.
  intros H; destruct H as [e | r e Hs Hr | r msg Hs Hd | r body e Hs Hd _ Hg];
    cbn [signin_result].
  - reflexivity.
  - now rewrite Hr.
  - rewrite raise_for_status_passes by exact Hs.
    unfold Response_json. now rewrite Hd.
  - rewrite raise_for_status_passes by exact Hs.
    unfold Response_json. now rewrite Hd.
Qed.

(** A failed sign-in exchange makes [_authenticate] raise what ended it,
    with the instance untouched. *)
Lemma authenticate_failure (s : Sess) (e : exn) :
  signin_failure (network (wire s) (signin_call (config (self s)))) e ->
  _authenticate s = (Raised e, sent s (signin_call (config (self s)))).
Proof.
  intros Hf. apply signin_failure_result in Hf.
  rewrite authenticate_eq; cbv zeta. now rewrite Hf.
Qed.

End ClientSteps.

(** ** C1 *)

Section CallWrapper.
Context {rt : Runtime}.

(** C1. [call_api] never raises: for every method, endpoint and options, in
    every state of the module and against every network, it returns, and
    what it returns is [{"success": True, "data": ...}] or
    [{"success": False, "error": <message>}]. *)
Theorem call_api_never_raises (method endpoint : string) (kwargs : dict)
    (g : Globals) :
  exists v g', call_api method endpoint kwargs g = (Returned v, g')
               /\ is_call_result v.
Proof.
  unfold call_api, try_except.
  match goal with |- context [match ?b g with _ => _ end] =>
    destruct (b g) as [[v | e] g1] eqn:Hbody end.
  - exists v, g1; split; [reflexivity|].
    revert Hbody; unfold bind.
    destruct (get_client g) as [[c | e] g0]; [|discriminate].
    destruct (on_client c (request method endpoint kwargs) g0)
      as [[r | e] g2]; [|discriminate].
    destruct (negb (ok r)).
    + unfold ret; intros [= <- _]; right; eexists; reflexivity.
    + unfold lift; destruct (Response_json r) as [d | e]; [|discriminate].
      unfold ret; intros [= <- _]; left; eexists; reflexivity.
  - destruct (dispatch_call_api_clauses e g1) as [msg Hd].
    exists (Failure msg), g1; split; [exact Hd | right; eexists; reflexivity].
Qed.

End CallWrapper.

(** ** C2 *)

Section Client.
Context {rt : Runtime}.


End Client.

(** ** C3 and C6 *)

Section Classification.
Context {rt : Runtime}.

(** [call_api] is its [try] body, the client's outcome first, under its
    [except] clauses. *)
Lemma call_api_eq (method endpoint : string) (kwargs : dict) (g : Globals) :
  call_api method endpoint kwargs g =
    match client_outcome method endpoint kwargs g with
    | (Raised e, g1) => dispatch call_api_clauses e g1
    | (Returned response, g1) =>
        if negb (ok response) then
          (Returned (Failure ("HTTP " ++ str_int (status_code response) ++ ": "
                              ++ str_prefix 500 (text response))), g1)
        else
          match Response_json response with
          | Returned data => (Returned (Success data), g1)
          | Raised e => dispatch call_api_clauses e g1
          end
    end.
Proof.
  unfold call_api, try_except, client_outcome, bind.
  destruct (get_client g) as [[c | e] g0]; [|reflexivity].
  destruct (on_client c (request method endpoint kwargs) g0)
    as [[r | e] g1]; [|reflexivity].
  destruct (negb (ok r)); [reflexivity|].
  unfold lift. destruct (Response_json r); reflexivity.
Qed.

(** A body that does not decode, under a status [response.ok] accepts: the
    exception [Response.json] raises is a [RequestException], so the
    clause for those takes it, ahead of the clause for
    [json.JSONDecodeError]. *)
Lemma call_api_undecodable_body (method endpoint : string) (kwargs : dict)
    (g g1 : Globals) (r : Response) (msg : string) :
  client_outcome method endpoint kwargs g = (Returned r, g1) ->
  in_success_range (status_code r) ->
  decoded r = inl msg ->
  call_api method endpoint kwargs g
  = (Returned (Failure ("Request failed: " ++ msg)), g1).
Proof.
  intros Hc Hok Hd. rewrite call_api_eq, Hc.
  destruct (ok r) eqn:Hokr.
  - cbn [negb]. unfold Response_json. rewrite Hd. reflexivity.
  - apply ok_false_iff in Hokr. contradiction.
Qed.

(** The clause written for decoding errors does take a plain
    [json.JSONDecodeError]. *)
Lemma plain_decode_error_clause {S} (msg : string) (s : S) :
  dispatch call_api_clauses (mkExn JSONDecodeError msg) s
  = (Returned (Failure ("Invalid JSON response: " ++ msg)), s).
Proof. reflexivity. Qed.

(** C6, as the code has it.  When the response the client hands back has
    a status from 400 to 599, the statuses [response.ok] rejects,
    [call_api] returns a failure whose message is
    [HTTP <status>: <excerpt>], the excerpt being the first 500 characters
    of the body at most; it is not a success result. *)
Theorem call_api_http_error (method endpoint : string) (kwargs : dict)
    (g g1 : Globals) (r : Response) :
  client_outcome method endpoint kwargs g = (Returned r, g1) ->
  (400 <= status_code r < 600)%Z ->
  exists excerpt,
    call_api method endpoint kwargs g
    = (Returned (Failure ("HTTP " ++ str_int (status_code r) ++ ": "
                          ++ excerpt)), g1)
    /\ excerpt = substring 0 500 (text r)
    /\ String.length excerpt <= 500
    /\ prefix excerpt (text r) = true
    /\ forall data,
         Failure ("HTTP " ++ str_int (status_code r) ++ ": " ++ excerpt)
         <> Success data.
Proof.
  intros Hc Hbad. exists (str_prefix 500 (text r)).
  assert (Hok : ok r = false) by (apply ok_false_iff; exact Hbad).
  rewrite call_api_eq, Hc, Hok. cbn [negb].
  split; [reflexivity|]. split; [reflexivity|].
  split; [apply str_prefix_length|].
  split; [apply str_prefix_is_prefix|].
  intros data H. discriminate H.
Qed.

End Classification.

(** ** C4, C5 and C9 *)

Section SessionState.
Context {rt : Runtime}.

(** A reachable instance is the one [__init__] left, or carries the token
    of a sign-in answer with the headers derived from it. *)
Lemma reachable_evolved (cfg : DQConfig) (s : Sess) :
  reachable cfg s -> evolved (__init__ cfg) (self s).
Proof.
  induction 1 as [w | s o _ IH].
  - constructor.
  - eapply evolved_trans; [exact IH | apply perform_evolved].
Qed.

(** C4, as the code has it.  In every reachable state of an instance,
    headers that are not cached mean no token is cached either, so a cached
    token never comes without its headers; and when no sign-in answer
    carries a null token, [_token] and [_headers] are both [None] or both
    set. *)
Theorem token_and_headers_together (cfg : DQConfig) (s : Sess) :
  reachable cfg s ->
  (is_None (_headers (self s)) = true -> is_None (_token (self s)) = true)
  /\ (tokens_not_null ->
      is_None (_token (self s)) = is_None (_headers (self s))).
Proof.
  intros Hr. apply reachable_evolved in Hr.
  destruct Hr as [|h t Ht]; cbn.
  - auto.
  - split; [discriminate|].
    intros Hnn. specialize (Hnn h (config (__init__ cfg))).
    destruct t; try reflexivity. contradiction.
Qed.

(** C5, as the code has it.  When the sign-in exchange fails, by a
    transport failure, a status from 400 to 599, a body that does not decode
    or a decoded body without the [token] field, [_authenticate] raises the
    underlying exception and leaves the instance as it was, with nothing but
    the sign-in call on the wire; a [request] on an instance without cached
    headers raises the same exception, in the same state, before any attempt
    goes out. *)
Theorem signin_failure_leaves_state (s : Sess) (e : exn) :
  let c := signin_call (config (self s)) in
  signin_failure (network (wire s) c) e ->
  _authenticate s = (Raised e, sent s c)
  /\ self (sent s c) = self s
  /\ (is_None (_headers (self s)) = true ->
      forall method endpoint kwargs,
        request method endpoint kwargs s = (Raised e, sent s c)
        /\ attempts (wire s) (wire (sent s c)) = []).
Proof.
  cbv zeta. intros Hf. pose proof (authenticate_failure s e Hf) as Ha.
  split; [exact Ha|]. split; [reflexivity|].
  intros Hn method endpoint kwargs. split.
  - rewrite request_eq, headers_eq, Hn, Ha. reflexivity.
  - cbn [sent wire]. rewrite attempts_app. reflexivity.
Qed.

(** C9, as the code has it.  On an instance with cached headers, no
    operation sets [_headers] back to [None]; [_token] is only ever replaced
    by the token of a sign-in answer, so it stays set when no such answer
    carries a null token; and when the sign-in that follows a 401 fails, the
    exception propagates out of [request] with the instance as it was, the
    cached token and headers in place. *)
Theorem authenticated_stays_authenticated (s : Sess) (o : operation) :
  is_None (_headers (self s)) = false ->
  is_None (_headers (self (perform o s))) = false
  /\ (tokens_not_null -> is_None (_token (self s)) = false ->
      is_None (_token (self (perform o s))) = false)
  /\ (forall method endpoint kwargs r1 e,
        let c1 := first_attempt (config (self s)) method endpoint kwargs
                    (_headers (self s)) in
        let c := signin_call (config (self s)) in
        network (wire s) c1 = Responds r1 ->
        status_code r1 = 401%Z ->
        signin_failure (network (wire (sent s c1)) c) e ->
        request method endpoint kwargs s = (Raised e, sent (sent s c1) c)
        /\ self (sent (sent s c1) c) = self s).
Proof.
  intros Hh. pose proof (perform_evolved o s) as He.
  split; [|split].
  - destruct He as [|h t Hs]; [exact Hh | reflexivity].
  - intros Hnn Ht. destruct He as [|h t Hs]; [exact Ht|].
    cbn. specialize (Hnn h (config (self s))). destruct t; try reflexivity. contradiction.
  - cbv zeta. intros method endpoint kwargs r1 e Hn H401 Hf.
    split; [|reflexivity].
    pose proof (authenticate_failure
                  (sent s (first_attempt (config (self s)) method endpoint
                             kwargs (_headers (self s)))) e Hf) as Ha.
    rewrite request_eq, headers_eq, Hh. cbv zeta. rewrite Hn, H401.
    cbn [Z.eqb Pos.eqb]. rewrite Ha. reflexivity.
Qed.

End SessionState.

(** ** C7, C8 and C10 *)

Section Tools.
Context {rt : Runtime}.

(** [call_api] leaves the state its client call leaves. *)
Lemma call_api_state (method endpoint : string) (kwargs : dict) (g : Globals) :
  snd (call_api method endpoint kwargs g)
  = snd (client_outcome method endpoint kwargs g).
Proof.
  rewrite call_api_eq.
  destruct (client_outcome method endpoint kwargs g) as [[r | e] g1].
  - destruct (negb (ok r)); [reflexivity|].
    destruct (Response_json r) as [d | e]; [reflexivity|].
    destruct (dispatch_call_api_clauses e g1) as [msg ->]. reflexivity.
  - destruct (dispatch_call_api_clauses e g1) as [msg ->]. reflexivity.
Qed.

Lemma call_api_returns (method endpoint : string) (kwargs : dict)
    (g : Globals) :
  exists v g', call_api method endpoint kwargs g = (Returned v, g').
Proof.
  rewrite call_api_eq.
  destruct (client_outcome method endpoint kwargs g) as [[r | e] g1].
  - destruct (negb (ok r)); [eauto|].
    destruct (Response_json r) as [d | e]; [eauto|].
    destruct (dispatch_call_api_clauses e g1) as [msg ->]. eauto.
  - destruct (dispatch_call_api_clauses e g1) as [msg ->]. eauto.
Qed.

(** Every attempt one [call_api] makes carries its method and goes to its
    endpoint. *)
Lemma call_api_attempts (method endpoint : string) (kwargs : dict)
    (g : Globals) :
  Forall (fun c => call_method c = method
                   /\ call_url c = endpoint_url g endpoint)
    (attempts (wire g) (wire (snd (call_api method endpoint kwargs g)))).
Proof.
  rewrite call_api_state.
  unfold client_outcome, bind, get_client, endpoint_url, client_config.
  destruct (_client g) as [c|].
  - pose proof (request_attempts method endpoint kwargs (mkWorld c (wire g)))
      as H.
    unfold on_client.
    destruct (request method endpoint kwargs (mkWorld c (wire g)))
      as [res s']. exact H.
  - set (c := __init__ _).
    pose proof (request_attempts method endpoint kwargs (mkWorld c (wire g)))
      as H.
    unfold on_client. cbn [wire].
    destruct (request method endpoint kwargs (mkWorld c (wire g)))
      as [res s']. exact H.
Qed.

(** C10. [run_dq_job] registers the dataset first.  When the registration
    call yields a failure, the tool returns the JSON text of an object with
    [success] false and the error [Registration failed: ] followed by the
    registration error; the state is the one the registration call left, and
    every attempt that went out was a [PUT] to [/v3/datasetDefs], none a
    call to [/v3/jobs/run].  When the registration call yields a success,
    the job-run call is made, it returns, and the tool returns the JSON text
    of its result. *)
Theorem run_dq_job_registers_first (dataset run_id sql : string)
    (g : Globals) :
  let registration :=
    call_api "PUT" "/v3/datasetDefs"
      [("json", registration_body dataset run_id sql)] g in
  (forall message g1,
     registration = (Returned (Failure message), g1) ->
     run_dq_job dataset run_id sql g
     = (Returned (json_dumps (Failure ("Registration failed: " ++ message))),
        g1)
     /\ Forall (fun c => call_method c = "PUT"
                         /\ call_url c = endpoint_url g "/v3/datasetDefs"
                         /\ call_url c <> endpoint_url g "/v3/jobs/run")
          (attempts (wire g) (wire g1)))
  /\ (forall data g1,
        registration = (Returned (Success data), g1) ->
        exists run_result g2,
          call_api "POST" "/v3/jobs/run"
            [("params", job_run_params dataset run_id)] g1
          = (Returned run_result, g2)
          /\ run_dq_job dataset run_id sql g
             = (Returned (json_dumps run_result), g2)).
Proof.
  cbv zeta. split.
  - intros message g1 Hreg. split.
    + unfold run_dq_job. unfold bind at 1.
      change (PDict _) with (registration_body dataset run_id sql) at 1.
      rewrite Hreg. reflexivity.
    + pose proof (call_api_attempts "PUT" "/v3/datasetDefs"
                    [("json", registration_body dataset run_id sql)] g) as H.
      rewrite Hreg in H. cbn [snd] in H.
      eapply Forall_impl; [|exact H]. cbv beta. intros c (Hm & Hu).
      split; [exact Hm|]. split; [exact Hu|].
      rewrite Hu. unfold endpoint_url. intros Heq.
      apply append_inv_head in Heq. discriminate Heq.
  - intros data g1 Hreg.
    destruct (call_api_returns "POST" "/v3/jobs/run"
                [("params", job_run_params dataset run_id)] g1)
      as (run_result & g2 & Hrun).
    exists run_result, g2. split; [exact Hrun|].
    unfold run_dq_job. unfold bind at 1.
    change (PDict _) with (registration_body dataset run_id sql) at 1.
    rewrite Hreg.
    unfold bind at 1, lift at 1. cbn [py_getitem Success dict_lookup String.eqb
      Ascii.eqb Bool.eqb py_bool negb].
    unfold bind. fold (job_run_params dataset run_id). rewrite Hrun.
    reflexivity.
Qed.

(** C7. On a successful SQL result with a well-formed schema and [n] rows,
    a cell per column in each, [run_sql] returns the title line followed by
    the table of the frame whose header is the schema's names and whose
    data rows are the first [min n 10] rows; when [n > 10] the note
    [*Showing 10 of n rows*] follows, and when [n <= 10] nothing does. *)
Theorem run_sql_table (sql : string) (g g' : Globals) (json_data : pyval)
    (names : list pyval) (cells : list (list pyval)) :
  call_api "POST" "/v2/getsqlresult"
    [("params", PDict [("sql", PStr sql);
                       ("cxn", PStr (getenv_default "DQ_CXN" "BIGQUERY"))])] g
  = (Returned (Success json_data), g') ->
  sql_payload json_data names cells ->
  rectangular names cells ->
  let shown := firstn 10 cells in
  let table :=
    ("Results for: `" ++ sql ++ "`" ++ nl ++ nl)
    ++ to_markdown (mkFrame names shown) in
  length shown = Nat.min (length cells) 10
  /\ (length cells <= 10 -> run_sql sql g = (Returned table, g'))
  /\ (10 < length cells ->
      run_sql sql g
      = (Returned (table ++ nl ++ nl ++ "*Showing 10 of "
                   ++ str_len (length cells) ++ " rows*"), g')).
Proof.
  intros Hcall (schema & row_list & Hs & Hnames & Hr & Hrows) Hrect.
  cbv zeta. split; [rewrite length_firstn; lia|].
  assert (Hrun : run_sql sql g =
    (Returned
       (if (10 <? length cells)%nat
        then (("Results for: `" ++ sql ++ "`" ++ nl ++ nl)
              ++ to_markdown (mkFrame names (firstn 10 cells)))
             ++ nl ++ nl ++ "*Showing 10 of " ++ str_len (length cells)
             ++ " rows*"
        else ("Results for: `" ++ sql ++ "`" ++ nl ++ nl)
             ++ to_markdown (mkFrame names (firstn 10 cells))), g')).
  { unfold run_sql. unfold bind at 1. rewrite Hcall.
    unfold bind at 1, lift at 1. cbn [py_getitem Success dict_lookup String.eqb
      Ascii.eqb Bool.eqb py_bool negb].
    unfold try_except, bind, lift.
    cbn [py_getitem Success dict_lookup String.eqb Ascii.eqb Bool.eqb].
    rewrite (has_field_getitem _ _ _ Hs). cbn [py_iter].
    rewrite (for_each_Forall2 (fun col => py_getitem col "name") schema names)
      by (eapply Forall2_impl; [|exact Hnames]; cbv beta; intros;
          now apply has_field_getitem).
    rewrite (has_field_getitem _ _ _ Hr). cbn [py_iter].
    rewrite (for_each_Forall2 row_cells row_list cells)
      by (eapply Forall2_impl; [|exact Hrows]; cbv beta; intros;
          now apply row_cells_payload).
    rewrite (pd_DataFrame_rectangular _ _ Hrect).
    unfold df_len, df_head, ret. cbn [rows columns].
    destruct (10 <? length cells)%nat; reflexivity. }
  rewrite Hrun. split; intros Hn.
  - destruct (Nat.ltb_spec 10 (length cells)); [lia | reflexivity].
  - destruct (Nat.ltb_spec 10 (length cells)); [reflexivity | lia].
Qed.

(** C8. On a successful rules response that lists rule objects,
    [get_rules_by_dataset] returns the JSON text of
    [{"success": true, "data": [...]}] with one entry per rule, in order,
    [ruleNm], [ruleValue], [ruleType] and [points] under [name], [sql],
    [type] and [points]; on an empty list it returns the JSON text of an
    object with [success] true and the message that no rules were found for
    the dataset, and no [data] field. *)
Theorem get_rules_by_dataset_shape (dataset : string) (g g' : Globals)
    (rules : list dict) :
  call_api "GET" ("/v3/rules/" ++ dataset) [] g
  = (Returned (Success (PList (map PDict rules))), g') ->
  (rules = [] ->
   get_rules_by_dataset dataset g
   = (Returned
        (json_dumps
           (PDict [("success", PBool true);
                   ("message",
                    PStr ("No rules found for dataset: " ++ dataset))])), g'))
  /\ (rules <> [] ->
      get_rules_by_dataset dataset g
      = (Returned
           (json_dumps
              (PDict [("success", PBool true);
                      ("data", PList (map rule_entry rules))])), g')).
Proof.
  intros Hcall.
  assert (Hstep : get_rules_by_dataset dataset g =
    (if negb (py_bool (PList (map PDict rules))) then
       ret (json_dumps
              (PDict [("success", PBool true);
                      ("message",
                       PStr ("No rules found for dataset: " ++ dataset))]))
     else
       ret (json_dumps (PDict [("success", PBool true);
                               ("data", PList (map rule_entry rules))]))) g').
  { unfold get_rules_by_dataset. unfold bind at 1. rewrite Hcall.
    unfold bind at 1, lift at 1. cbn [py_getitem Success dict_lookup String.eqb
      Ascii.eqb Bool.eqb py_bool negb].
    unfold bind at 1, lift at 1.
    cbn [py_getitem Success dict_lookup String.eqb Ascii.eqb Bool.eqb].
    destruct rules as [|r rules]; [reflexivity|].
    cbn [map negb]. unfold bind, lift. cbn [py_iter].
    pose proof (for_each_format_rule (r :: rules)) as Hfmt.
    cbn [map] in Hfmt. rewrite Hfmt. reflexivity. }
  rewrite Hstep. split.
  - intros ->. reflexivity.
  - intros Hne. destruct rules; [contradiction | reflexivity].
Qed.

End Tools.

(** * Further properties *)

(** ** Option dictionaries *)

Lemma dict_lookup_setitem_same (d : dict) (k : string) (v : pyval) :
  dict_lookup (dict_setitem d k v) k = Some v.
Proof.
  induction d as [|[k' v'] d IH]; cbn.
  - now rewrite String.eqb_refl.
  - destruct (k' =? k) eqn:E; cbn; rewrite E; [reflexivity | exact IH].
Qed.






Section ClientMore.
Context {rt : Runtime}.



End ClientMore.

Section ClientTraffic.
Context {rt : Runtime}.

(** X2. A client that holds cached headers does not sign in again for a
    request that is not answered with a 401: the one call on the wire is the
    request under the cached headers, its outcome is the outcome of
    [request], and the instance is left as it was. *)
Theorem request_reuses_cached_headers (method endpoint : string)
    (kwargs : dict) (s : Sess) :
  is_None (_headers (self s)) = false ->
  let c1 := first_attempt (config (self s)) method endpoint kwargs
              (_headers (self s)) in
  (forall r, network (wire s) c1 = Responds r -> status_code r <> 401%Z) ->
  request method endpoint kwargs s
  = (delivered (network (wire s) c1), sent s c1).
Proof.
  cbv zeta. intros Hh Hno. rewrite request_eq, headers_eq, Hh. cbv zeta.
  destruct (network (wire s) _) as [r | e] eqn:Hn; [|reflexivity].
  specialize (Hno r eq_refl).
  destruct (Z.eqb_spec (status_code r) 401); [contradiction | reflexivity].
Qed.

(** X3. The first request of a client without cached headers signs in
    first, and when the sign-in answer holds the token [t] the request that
    follows goes out with [Authorization: Bearer t]. *)
Theorem first_request_carries_bearer_token (method endpoint : string)
    (kwargs : dict) (s : Sess) (r0 : Response) (body : pyval) (t : string) :
  is_None (_headers (self s)) = true ->
  let sc := signin_call (config (self s)) in
  network (wire s) sc = Responds r0 ->
  in_success_range (status_code r0) ->
  decoded r0 = inr body ->
  has_field body "token" (PStr t) ->
  let bearer := PDict [("Content-Type", PStr "application/json");
                       ("accept", PStr "application/json");
                       ("Authorization", PStr ("Bearer " ++ t))] in
  let c1 := first_attempt (config (self s)) method endpoint kwargs bearer in
  dict_lookup (call_kwargs c1) "headers" = Some bearer
  /\ exists rest,
       wire (snd (request method endpoint kwargs s))
       = (wire s ++ sc :: c1 :: rest)%list.
Proof.
  cbv zeta. intros Hh Hn Hok Hd Hf.
  split; [apply dict_lookup_setitem_same|].
  assert (Hs : signin_result (network (wire s) (signin_call (config (self s))))
               = Returned (PStr t)).
  { rewrite Hn. cbn [signin_result].
    rewrite (raise_for_status_passes r0 Hok). unfold Response_json.
    rewrite Hd. now apply has_field_getitem. }
  rewrite request_eq, headers_eq, Hh, authenticate_eq. cbv zeta. rewrite Hs.
  cbn [self obj _headers wire auth_headers py_str].
  match goal with |- context [network ?w ?c] =>
    destruct (network w c) as [r1 | e] end.
  2:{ exists []. cbn [snd sent wire]. now rewrite <- app_assoc. }
  destruct (status_code r1 =? 401)%Z.
  2:{ exists []. cbn [snd sent wire]. now rewrite <- app_assoc. }
  rewrite authenticate_eq. cbv zeta.
  match goal with |- context [signin_result ?o] =>
    destruct (signin_result o) as [t2 | e] end;
    cbn [snd sent wire obj];
    eexists; rewrite <- !app_assoc; cbn [app]; reflexivity.
Qed.

(** The calls one [request] adds to the wire: at most four, two sign-ins
    and two attempts at most; at most three, with one sign-in, when headers
    were cached. *)
Lemma request_new_calls (method endpoint : string) (kwargs : dict) (s : Sess) :
  exists new,
    wire (snd (request method endpoint kwargs s)) = (wire s ++ new)%list
    /\ length new <= 4
    /\ length (filter is_attempt new) <= 2
    /\ length (filter is_signin new) <= 2
    /\ (is_None (_headers (self s)) = false ->
        length new <= 3 /\ length (filter is_signin new) <= 1).
Proof.
  rewrite request_eq, headers_eq.
  destruct (is_None (_headers (self s))) eqn:Hh.
  - rewrite authenticate_eq; cbv zeta.
    destruct (signin_result _) as [t | e].
    2:{ eexists; split; [reflexivity|]. cbn. repeat split; lia. }
    cbn [self obj _headers wire].
    match goal with |- context [network ?w ?c] =>
      destruct (network w c) as [r1 | e] end.
    2:{ eexists; split; [cbn [snd sent wire]; rewrite <- app_assoc; reflexivity|].
        cbn. repeat split; lia. }
    destruct (status_code r1 =? 401)%Z.
    2:{ eexists; split; [cbn [snd sent wire]; rewrite <- app_assoc; reflexivity|].
        cbn. repeat split; lia. }
    rewrite authenticate_eq; cbv zeta.
    destruct (signin_result _) as [t2 | e]; cbn [snd sent wire obj];
      (eexists; split; [rewrite <- !app_assoc; reflexivity|]);
      cbn; repeat split; lia.
  - cbv zeta.
    match goal with |- context [network ?w ?c] =>
      destruct (network w c) as [r1 | e] end.
    2:{ eexists; split; [reflexivity|]. cbn. repeat split; lia. }
    destruct (status_code r1 =? 401)%Z.
    2:{ eexists; split; [reflexivity|]. cbn. repeat split; lia. }
    rewrite authenticate_eq; cbv zeta.
    destruct (signin_result _) as [t2 | e]; cbn [snd sent wire obj];
      (eexists; split; [rewrite <- !app_assoc; reflexivity|]);
      cbn; repeat split; lia.
Qed.

Lemma evolved_config (a b : DQClient) : evolved a b -> config b = config a.
Proof. intros H; destruct H; reflexivity. Qed.

(** The state a call on the singleton leaves, in terms of the instance. *)
Lemma client_outcome_state (method endpoint : string) (kwargs : dict)
    (g : Globals) :
  let c0 := match _client g with
            | Some c => c
            | None => __init__ (client_config g)
            end in
  let run := request method endpoint kwargs (mkWorld c0 (wire g)) in
  client_outcome method endpoint kwargs g
  = (fst run, mkWorld (Some (self (snd run))) (wire (snd run)))
  /\ config c0 = client_config g.
Proof.
  cbv zeta. unfold client_outcome, bind, get_client, client_config, on_client.
  destruct (_client g) as [c|]; cbn [wire];
    destruct (request method endpoint kwargs _) as [res s']; auto.
Qed.

(** X4. One [call_api] never removes anything from the wire and adds at
    most four calls to it, two sign-ins and two attempts at the request at
    most; when the singleton holds cached headers it adds at most three, of
    which at most one sign-in. *)
Theorem call_api_wire_bound (method endpoint : string) (kwargs : dict)
    (g : Globals) :
  exists new,
    wire (snd (call_api method endpoint kwargs g)) = (wire g ++ new)%list
    /\ length new <= 4
    /\ length (filter is_attempt new) <= 2
    /\ length (filter is_signin new) <= 2
    /\ (forall c, _client g = Some c -> is_None (_headers c) = false ->
        length new <= 3 /\ length (filter is_signin new) <= 1).
Proof.
  rewrite call_api_state.
  destruct (client_outcome_state method endpoint kwargs g) as (-> & _).
  cbn [snd wire].
  match goal with |- context [request _ _ _ ?s0] =>
    destruct (request_new_calls method endpoint kwargs s0)
      as (new & Hw & H4 & Ha & Hs & Hc) end.
  exists new. cbn [wire] in Hw.
  split; [exact Hw|]. split; [exact H4|]. split; [exact Ha|].
  split; [exact Hs|].
  intros c Hsome Hh. apply Hc. rewrite Hsome. exact Hh.
Qed.

(** X7. After a [call_api] the singleton exists, and its configuration is
    the one the module had or was about to read from the environment: the
    environment is read once, by the first call. *)
Theorem call_api_keeps_configuration (method endpoint : string)
    (kwargs : dict) (g : Globals) :
  exists c, _client (snd (call_api method endpoint kwargs g)) = Some c
            /\ config c = client_config g
            /\ client_config (snd (call_api method endpoint kwargs g))
               = client_config g.
Proof.
  rewrite call_api_state.
  destruct (client_outcome_state method endpoint kwargs g) as (-> & Hcfg).
  cbn [snd].
  match goal with |- context [request _ _ _ ?s0] =>
    pose proof (evolved_config _ _ (request_evolved method endpoint kwargs s0))
      as He;
    set (run := request method endpoint kwargs s0) in * end.
  cbn [self obj] in He. fold (self (snd run)) in He. rewrite Hcfg in He.
  exists (self (snd run)). split; [reflexivity|]. split; [exact He|].
  unfold client_config at 1. cbn [_client obj]. exact He.
Qed.

End ClientTraffic.

Section WrapperMore.
Context {rt : Runtime}.

Lemma ok_true_iff (r : Response) :
  ok r = true <-> in_success_range (status_code r).
Proof.
  unfold in_success_range. rewrite <- ok_false_iff.
  destruct (ok r); split; congruence.
Qed.

(** [call_api] returns, and what it returns is a call result. *)
Lemma call_api_result (method endpoint : string) (kwargs : dict)
    (g : Globals) :
  exists v g', call_api method endpoint kwargs g = (Returned v, g')
               /\ is_call_result v.
Proof.
  rewrite call_api_eq.
  destruct (client_outcome method endpoint kwargs g) as [[r | e] g1].
  - destruct (negb (ok r)); [do 2 eexists; split; [reflexivity|]; right; eauto|].
    destruct (Response_json r) as [d | e];
      [do 2 eexists; split; [reflexivity|]; left; eauto|].
    destruct (dispatch_call_api_clauses e g1) as [msg ->].
    do 2 eexists; split; [reflexivity|]; right; eauto.
  - destruct (dispatch_call_api_clauses e g1) as [msg ->].
    do 2 eexists; split; [reflexivity|]; right; eauto.
Qed.

(** X5. [call_api] returns a success exactly when the client handed back a
    response with a status in the success range whose body decodes, and the
    data of the success is the decoded body. *)
Theorem call_api_success_iff (method endpoint : string) (kwargs : dict)
    (g g1 : Globals) (data : pyval) :
  call_api method endpoint kwargs g = (Returned (Success data), g1)
  <-> exists r,
        client_outcome method endpoint kwargs g = (Returned r, g1)
        /\ in_success_range (status_code r)
        /\ decoded r = inr data.
Proof.
  rewrite call_api_eq. split.
  - destruct (client_outcome method endpoint kwargs g) as [[r | e] g0].
    + destruct (ok r) eqn:Hok; cbn [negb]; [|discriminate].
      unfold Response_json. destruct (decoded r) as [msg | d] eqn:Hd.
      * destruct (dispatch_call_api_clauses
                    (mkExn RequestsJSONDecodeError msg) g0) as [m ->].
        discriminate.
      * intros [= <- <-]. exists r. split; [reflexivity|].
        split; [now apply ok_true_iff | exact Hd].
    + destruct (dispatch_call_api_clauses e g0) as [m ->]. discriminate.
  - intros (r & -> & Hok & Hd). apply ok_true_iff in Hok. rewrite Hok.
    cbn [negb]. unfold Response_json. now rewrite Hd.
Qed.

(** X6. When the singleton holds no headers and the sign-in exchange fails,
    [call_api] makes no attempt at the request: the sign-in call is all
    that goes out, the instance stays without token and headers, so that
    the next call signs in again, and the result is the failure the
    [except] clauses make of the sign-in's exception. *)
Theorem call_api_reports_signin_failure (method endpoint : string)
    (kwargs : dict) (g : Globals) (e : exn) :
  (forall c, _client g = Some c -> is_None (_headers c) = true) ->
  let cfg := client_config g in
  let c0 := match _client g with Some c => c | None => __init__ cfg end in
  signin_failure (network (wire g) (signin_call cfg)) e ->
  call_api method endpoint kwargs g
  = dispatch call_api_clauses e
      (mkWorld (Some c0) (wire g ++ [signin_call cfg]))
  /\ is_None (_headers c0) = true.
Proof.
  cbv zeta. intros Hnone Hf.
  destruct (client_outcome_state method endpoint kwargs g) as (Hco & Hcfg).
  cbv zeta in Hco, Hcfg.
  set (c0 := match _client g with
             | Some c => c
             | None => __init__ (client_config g)
             end) in *.
  assert (Hh : is_None (_headers c0) = true).
  { subst c0. destruct (_client g) as [c|]; [now apply Hnone | reflexivity]. }
  split; [|exact Hh].
  rewrite call_api_eq, Hco, request_eq, headers_eq.
  cbn [self obj wire]. rewrite Hh.
  rewrite (authenticate_failure (mkWorld c0 (wire g)) e)
    by (cbn [self obj wire]; rewrite Hcfg; exact Hf).
  cbn [fst snd sent self obj wire]. rewrite Hcfg. reflexivity.
Qed.

End WrapperMore.

(** ** The tools *)

Lemma py_getitem_raises (v : pyval) (k : string) (e : exn) :
  py_getitem v k = Raised e ->
  exn_type e = KeyError \/ exn_type e = TypeError.
Proof.
  destruct v; cbn; try (intros [= <-]; cbn; auto).
  destruct (dict_lookup d k); intros [= <-]; auto.
Qed.

Lemma py_getitem_missing (v : pyval) (k : string) :
  (forall x, ~ has_field v k x) -> exists e, py_getitem v k = Raised e.
Proof.
  intros H. destruct (py_getitem v k) as [x | e] eqn:E; [|eauto].
  exfalso. apply (H x). destruct v; cbn in E; try discriminate.
  exists d. split; [reflexivity|].
  destruct (dict_lookup d k); [congruence | discriminate].
Qed.

Lemma py_iter_raises (v : pyval) (e : exn) :
  py_iter v = Raised e -> exn_type e = TypeError.
Proof.
  destruct v; cbn; intros [= <-]; reflexivity.
Qed.

Lemma py_get_raises (v : pyval) (k : string) (e : exn) :
  py_get v k = Raised e -> exn_type e = AttributeError.
Proof.
  destruct v; cbn; intros [= <-]; reflexivity.
Qed.

Lemma py_get_default_raises (v : pyval) (k : string) (d : pyval) (e : exn) :
  py_get_default v k d = Raised e -> exn_type e = AttributeError.
Proof.
  destruct v; cbn; intros [= <-]; reflexivity.
Qed.

(** A loop that raises does so at one of its items. *)
Lemma for_each_raises {A B} (f : A -> result B) (l : list A) (e : exn) :
  for_each f l = Raised e -> exists x, In x l /\ f x = Raised e.
Proof.
  induction l as [|x l IH]; cbn; [discriminate|].
  destruct (f x) as [y | e'] eqn:Hx.
  - destruct (for_each f l) as [ys | e'']; [discriminate|].
    intros [= <-]. destruct (IH eq_refl) as (x' & Hin & Hf). eauto.
  - intros [= <-]. eauto.
Qed.

(** The clauses [except (KeyError, TypeError)] take both classes. *)
Lemma parse_clauses_catch {S A} (h : exn -> A) (e : exn) (s : S) :
  exn_type e = KeyError \/ exn_type e = TypeError ->
  dispatch [(KeyError, h); (TypeError, h)] e s = (Returned (h e), s).
Proof.
  destruct e as [c msg]; cbn [exn_type]. intros [-> | ->]; reflexivity.
Qed.

(** Outside those two classes the exception goes on. *)
Lemma parse_clauses_pass {S A} (h : exn -> A) (e : exn) (s : S) :
  exn_type e = AttributeError \/ exn_type e = ValueError ->
  dispatch [(KeyError, h); (TypeError, h)] e s = (Raised e, s).
Proof.
  destruct e as [c msg]; cbn [exn_type]. intros [-> | ->]; reflexivity.
Qed.

Section ToolsMore.
Context {rt : Runtime}.

(** X8. When the call of [run_sql], [get_rules_by_dataset],
    [search_catalog] or [get_jobs_in_queue] yields a failure, the tool
    returns the JSON text of that failure, unchanged. *)
Theorem tools_pass_failure_through (g g' : Globals) (message : string) :
  (forall sql,
      call_api "POST" "/v2/getsqlresult" (sql_options sql) g
      = (Returned (Failure message), g') ->
      run_sql sql g = (Returned (json_dumps (Failure message)), g'))
  /\ (forall dataset,
        call_api "GET" ("/v3/rules/" ++ dataset) [] g
        = (Returned (Failure message), g') ->
        get_rules_by_dataset dataset g
        = (Returned (json_dumps (Failure message)), g'))
  /\ (forall search_string limit,
        call_api "GET" "/v2/getdataassetsarrforserversidewithmultifilters"
          (catalog_options search_string limit) g
        = (Returned (Failure message), g') ->
        search_catalog search_string limit g
        = (Returned (json_dumps (Failure message)), g'))
  /\ (forall limit status,
        call_api "GET" "/v2/getowlcheckq" (queue_options limit status) g
        = (Returned (Failure message), g') ->
        get_jobs_in_queue limit status g
        = (Returned (json_dumps (Failure message)), g')).
Proof.
  repeat split; intros.
  - unfold run_sql. unfold bind at 1.
    change [("params", _)] with (sql_options sql). rewrite H. reflexivity.
  - unfold get_rules_by_dataset. unfold bind at 1. rewrite H. reflexivity.
  - unfold search_catalog. unfold bind at 1.
    change [("params", _)] with (catalog_options search_string limit).
    rewrite H. reflexivity.
  - unfold get_jobs_in_queue. unfold bind at 1.
    change [("params", _)] with (queue_options limit status).
    rewrite H. reflexivity.
Qed.

Lemma hands_on_call_intro (method endpoint : string) (kwargs : dict)
    (g : Globals) :
  hands_on_call (r <- call_api method endpoint kwargs ;; ret (json_dumps r))
    method endpoint kwargs g.
Proof.
  destruct (call_api_result method endpoint kwargs g) as (v & g' & Hc & Hv).
  exists v, g'. split; [exact Hc|]. split; [exact Hv|].
  unfold bind. now rewrite Hc.
Qed.

(** X9. [get_recent_runs], [save_rule], [get_dataset_definition],
    [get_hoot_results], [get_alerts] and [save_alert] never raise: each
    makes one [call_api], to its endpoint and with its parameters or body,
    and returns the JSON text of the call result, success or failure. *)
Theorem plain_tools_hand_on_the_call_result (g : Globals) :
  hands_on_call get_recent_runs "GET" "/v2/getrecentruns" [] g
  /\ (forall dataset rule_name rule_sql points perc,
        hands_on_call (save_rule dataset rule_name rule_sql points perc)
          "POST" "/v3/rules"
          [("json", rule_body dataset rule_name rule_sql points perc)] g)
  /\ (forall dataset,
        hands_on_call (get_dataset_definition dataset)
          "GET" "/v2/owl-options/get"
          [("params", PDict [("dataset", PStr dataset)])] g)
  /\ (forall dataset run_id,
        hands_on_call (get_hoot_results dataset run_id)
          "GET" "/v2/gethoot"
          [("params", PDict [("dataset", PStr dataset);
                             ("runId", PStr run_id)])] g)
  /\ (forall dataset,
        hands_on_call (get_alerts dataset)
          "GET" "/v2/getalerts"
          [("params", PDict [("dataset", PStr dataset)])] g)
  /\ (forall dataset alert_name condition email message,
        hands_on_call (save_alert dataset alert_name condition email message)
          "POST" "/v3/alerts"
          [("json", alert_body dataset alert_name condition email message)] g).
Proof.
  repeat split; intros; apply hands_on_call_intro.
Qed.

End ToolsMore.

Section SqlTool.
Context {rt : Runtime}.

(** [run_sql] on a successful call, as the steps of its [try] block. *)
Lemma run_sql_success_eq (sql : string) (g g' : Globals) (json_data : pyval) :
  call_api "POST" "/v2/getsqlresult" (sql_options sql) g
  = (Returned (Success json_data), g') ->
  run_sql sql g =
    match
      match py_getitem json_data "schema" with
      | Raised e => Raised e
      | Returned schema =>
      match py_iter schema with
      | Raised e => Raised e
      | Returned cols =>
      match for_each (fun col => py_getitem col "name") cols with
      | Raised e => Raised e
      | Returned column_names =>
      match py_getitem json_data "rows" with
      | Raised e => Raised e
      | Returned rows_json =>
      match py_iter rows_json with
      | Raised e => Raised e
      | Returned row_list =>
      match for_each row_cells row_list with
      | Raised e => Raised e
      | Returned data_rows =>
      match pd_DataFrame data_rows column_names with
      | Raised e => Raised e
      | Returned df =>
          Returned
            (if (10 <? df_len df)%nat
             then (("Results for: `" ++ sql ++ "`" ++ nl ++ nl)
                   ++ to_markdown (df_head 10 df))
                  ++ nl ++ nl ++ "*Showing 10 of " ++ str_len (df_len df)
                  ++ " rows*"
             else ("Results for: `" ++ sql ++ "`" ++ nl ++ nl)
                  ++ to_markdown (df_head 10 df))
      end end end end end end end
    with
    | Returned markdown => (Returned markdown, g')
    | Raised e =>
        dispatch [(KeyError, parse_failure); (TypeError, parse_failure)] e g'
    end.
Proof.
  intros Hcall. unfold run_sql. unfold bind at 1.
  change [("params", _)] with (sql_options sql). rewrite Hcall.
  unfold bind at 1, lift at 1. cbn [py_getitem Success dict_lookup String.eqb
    Ascii.eqb Bool.eqb py_bool negb].
  unfold try_except, bind, lift.
  cbn [py_getitem Success dict_lookup String.eqb Ascii.eqb Bool.eqb].
  destruct (py_getitem json_data "schema") as [schema|]; [|reflexivity].
  destruct (py_iter schema) as [cols|]; [|reflexivity].
  destruct (for_each _ cols) as [names|]; [|reflexivity].
  destruct (py_getitem json_data "rows") as [rows_json|]; [|reflexivity].
  destruct (py_iter rows_json) as [row_list|]; [|reflexivity].
  destruct (for_each row_cells row_list) as [data_rows|]; [|reflexivity].
  destruct (pd_DataFrame data_rows names) as [df|]; [|reflexivity].
  unfold ret. destruct (10 <? df_len df)%nat; reflexivity.
Qed.

(** X10. When the payload of a successful SQL call has no [schema] to
    read, because it is not an object or has no such field, [run_sql]
    does not raise: it returns the JSON text of a failure whose error is
    [Failed to parse response: ] followed by the text of the [KeyError] or
    [TypeError]; for an object without the field that text is ['schema']. *)
Theorem run_sql_reports_missing_schema (sql : string) (g g' : Globals)
    (json_data : pyval) :
  call_api "POST" "/v2/getsqlresult" (sql_options sql) g
  = (Returned (Success json_data), g') ->
  (forall x, ~ has_field json_data "schema" x) ->
  exists e,
    py_getitem json_data "schema" = Raised e
    /\ (exn_type e = KeyError \/ exn_type e = TypeError)
    /\ (is_object json_data = true -> e = mkExn KeyError "'schema'")
    /\ run_sql sql g
       = (Returned
            (json_dumps (Failure ("Failed to parse response: " ++ exn_str e))),
          g').
Proof.
  intros Hcall Hno. destruct (py_getitem_missing _ _ Hno) as [e He].
  exists e. split; [exact He|].
  pose proof (py_getitem_raises _ _ _ He) as Hcls. split; [exact Hcls|].
  split.
  - destruct json_data; try discriminate. intros _. cbn in He.
    destruct (dict_lookup d "schema"); congruence.
  - rewrite (run_sql_success_eq _ _ _ _ Hcall), He.
    now rewrite parse_clauses_catch.
Qed.

Lemma sql_payload_steps (json_data : pyval) (names : list pyval)
    (cells : list (list pyval)) :
  sql_payload json_data names cells ->
  exists schema row_list,
    py_getitem json_data "schema" = Returned (PList schema)
    /\ for_each (fun col => py_getitem col "name") schema = Returned names
    /\ py_getitem json_data "rows" = Returned (PList row_list)
    /\ for_each row_cells row_list = Returned cells.
Proof.
  intros (schema & row_list & Hs & Hnames & Hr & Hrows).
  exists schema, row_list.
  split; [now apply has_field_getitem|]. split.
  - apply for_each_Forall2. eapply Forall2_impl; [|exact Hnames].
    cbv beta; intros; now apply has_field_getitem.
  - split; [now apply has_field_getitem|].
    apply for_each_Forall2. eapply Forall2_impl; [|exact Hrows].
    cbv beta; intros; now apply row_cells_payload.
Qed.

(** X11. [run_sql] catches [KeyError] and [TypeError] only: on a
    well-formed payload with string column names whose widest row does not
    have one cell per column, the [ValueError] of the frame constructor leaves the tool as an
    exception, not as a failure result. *)
Theorem run_sql_raises_on_ragged_rows (sql : string) (g g' : Globals)
    (json_data : pyval) (names : list pyval) (cells : list (list pyval)) :
  call_api "POST" "/v2/getsqlresult" (sql_options sql) g
  = (Returned (Success json_data), g') ->
  sql_payload json_data names cells ->
  Forall (fun n => exists s, n = PStr s) names ->
  cells <> [] ->
  widest cells <> length names ->
  exists e, run_sql sql g = (Raised e, g') /\ exn_type e = ValueError.
Proof.
  intros Hcall Hp _ Hne Hw.
  destruct (sql_payload_steps _ _ _ Hp) as (schema & row_list & Hs & Hn & Hr & Hc).
  rewrite (run_sql_success_eq _ _ _ _ Hcall), Hs. cbn [py_iter].
  rewrite Hn, Hr. cbn [py_iter]. rewrite Hc.
  unfold pd_DataFrame. destruct cells as [|r cells]; [contradiction|].
  destruct (Nat.eqb_spec (widest (r :: cells)) (length names));
    [contradiction|].
  eexists. split; [reflexivity | reflexivity].
Qed.

End SqlTool.

Section ListingTools.
Context {rt : Runtime}.

(** [get_rules_by_dataset] on a successful call. *)
Lemma get_rules_success_eq (dataset : string) (g g' : Globals) (data : pyval) :
  call_api "GET" ("/v3/rules/" ++ dataset) [] g
  = (Returned (Success data), g') ->
  get_rules_by_dataset dataset g =
    if negb (py_bool data) then
      (Returned
         (json_dumps
            (PDict [("success", PBool true);
                    ("message",
                     PStr ("No rules found for dataset: " ++ dataset))])), g')
    else
      match py_iter data with
      | Raised e => (Raised e, g')
      | Returned items =>
          match for_each format_rule items with
          | Raised e => (Raised e, g')
          | Returned formatted =>
              (Returned (json_dumps (PDict [("success", PBool true);
                                            ("data", PList formatted)])), g')
          end
      end.
Proof.
  intros Hcall. unfold get_rules_by_dataset. unfold bind at 1. rewrite Hcall.
  unfold bind at 1, lift at 1. cbn [py_getitem Success dict_lookup String.eqb
    Ascii.eqb Bool.eqb py_bool negb].
  unfold bind at 1, lift at 1.
  cbn [py_getitem Success dict_lookup String.eqb Ascii.eqb Bool.eqb].
  destruct (negb (py_bool data)); [reflexivity|].
  unfold bind, lift. destruct (py_iter data) as [items|]; [|reflexivity].
  destruct (for_each format_rule items); reflexivity.
Qed.

Lemma format_rule_non_object (x : pyval) :
  is_object x = false ->
  exists e, format_rule x = Raised e /\ exn_type e = AttributeError.
Proof.
  destruct x; try discriminate; intros _; eexists; split; reflexivity.
Qed.

Lemma format_rule_raises (x : pyval) (e : exn) :
  format_rule x = Raised e -> exn_type e = AttributeError.
Proof.
  destruct x; cbn; intros [= <-]; reflexivity.
Qed.

Lemma for_each_format_rule_non_object (items : list pyval) :
  (exists x, In x items /\ is_object x = false) ->
  exists e, for_each format_rule items = Raised e
            /\ exn_type e = AttributeError.
Proof.
  induction items as [|y items IH]; intros (x & Hin & Hx); [destruct Hin|].
  cbn [for_each]. destruct (format_rule y) as [v | e] eqn:Hy.
  - destruct Hin as [-> | Hin].
    + destruct (format_rule_non_object x Hx) as (e & He & _). congruence.
    + destruct IH as (e & -> & He); eauto.
  - exists e. split; [reflexivity | eapply format_rule_raises; eauto].
Qed.

(** X12. On a successful rules call, every payload that is false in a
    condition, [null], an empty list, object or string, zero or [false],
    is reported as no rules found for the dataset; rules are formatted only
    for a payload that is true in a condition. *)
Theorem get_rules_reports_no_rules_on_falsy_payload (dataset : string)
    (g g' : Globals) (data : pyval) :
  call_api "GET" ("/v3/rules/" ++ dataset) [] g
  = (Returned (Success data), g') ->
  py_bool data = false ->
  get_rules_by_dataset dataset g
  = (Returned
       (json_dumps
          (PDict [("success", PBool true);
                  ("message",
                   PStr ("No rules found for dataset: " ++ dataset))])), g').
Proof.
  intros Hcall Hf. rewrite (get_rules_success_eq _ _ _ _ Hcall), Hf.
  reflexivity.
Qed.

(** X13. [get_rules_by_dataset] has no [except] clause of its own: on a
    successful call whose payload lists something that is not an object,
    the tool raises an [AttributeError], and on a payload that is true in a
    condition but cannot be iterated, a number or [true], it raises a
    [TypeError]. *)
Theorem get_rules_raises_on_malformed_payload (dataset : string)
    (g g' : Globals) (data : pyval) :
  call_api "GET" ("/v3/rules/" ++ dataset) [] g
  = (Returned (Success data), g') ->
  (forall items,
      data = PList items ->
      (exists x, In x items /\ is_object x = false) ->
      exists e, get_rules_by_dataset dataset g = (Raised e, g')
                /\ exn_type e = AttributeError)
  /\ (py_bool data = true -> is_iterable data = false ->
      exists e, get_rules_by_dataset dataset g = (Raised e, g')
                /\ exn_type e = TypeError).
Proof.
  intros Hcall. rewrite (get_rules_success_eq _ _ _ _ Hcall). split.
  - intros items -> Hbad.
    destruct items as [|y items]; [destruct Hbad as (x & [] & _)|].
    cbn [py_bool negb py_iter].
    destruct (for_each_format_rule_non_object _ Hbad) as (e & -> & He).
    eauto.
  - intros Ht Hi. rewrite Ht. cbn [negb].
    destruct data; try discriminate; cbn [py_iter]; eauto.
Qed.

(** [search_catalog] on a successful call. *)
Lemma search_catalog_success_eq (search_string : string) (limit : Z)
    (g g' : Globals) (data : pyval) :
  call_api "GET" "/v2/getdataassetsarrforserversidewithmultifilters"
    (catalog_options search_string limit) g
  = (Returned (Success data), g') ->
  search_catalog search_string limit g =
    match py_get_default data "dataAssetList" (PList []) with
    | Raised e => (Raised e, g')
    | Returned datasets =>
        match py_len datasets with
        | Raised e => (Raised e, g')
        | Returned count =>
            (Returned (json_dumps (PDict [("success", PBool true);
                                          ("count", PInt (Z.of_nat count));
                                          ("data", datasets)])), g')
        end
    end.
Proof.
  intros Hcall. unfold search_catalog. unfold bind at 1.
  change [("params", _)] with (catalog_options search_string limit).
  rewrite Hcall.
  unfold bind at 1, lift at 1. cbn [py_getitem Success dict_lookup String.eqb
    Ascii.eqb Bool.eqb py_bool negb].
  unfold bind at 1, lift at 1.
  cbn [py_getitem Success dict_lookup String.eqb Ascii.eqb Bool.eqb].
  unfold bind, lift.
  destruct (py_get_default data _ _) as [datasets|]; [|reflexivity].
  destruct (py_len datasets); reflexivity.
Qed.

(** X14. On a successful catalog call whose payload is an object,
    [search_catalog] returns the JSON text of an object with [success]
    true, the list under [dataAssetList] as [data] and its length as
    [count]; when the payload has no such field, [data] is the empty list
    and [count] is 0. *)
Theorem search_catalog_counts_datasets (search_string : string) (limit : Z)
    (g g' : Globals) (d : dict) :
  call_api "GET" "/v2/getdataassetsarrforserversidewithmultifilters"
    (catalog_options search_string limit) g
  = (Returned (Success (PDict d)), g') ->
  (forall datasets,
      dict_lookup d "dataAssetList" = Some (PList datasets) ->
      search_catalog search_string limit g
      = (Returned
           (json_dumps
              (PDict [("success", PBool true);
                      ("count", PInt (Z.of_nat (length datasets)));
                      ("data", PList datasets)])), g'))
  /\ (dict_lookup d "dataAssetList" = None ->
      search_catalog search_string limit g
      = (Returned
           (json_dumps (PDict [("success", PBool true);
                               ("count", PInt 0);
                               ("data", PList [])])), g')).
Proof.
  intros Hcall. rewrite (search_catalog_success_eq _ _ _ _ _ Hcall).
  cbn [py_get_default]. split.
  - intros datasets ->. reflexivity.
  - intros ->. reflexivity.
Qed.

(** X15. [search_catalog] has no [except] clause of its own: on a
    successful call whose payload is not an object it raises an
    [AttributeError], and when the payload's [dataAssetList] is present but
    has no length, [null] or a number, it raises a [TypeError]; the default
    of an empty list applies to a missing field only. *)
Theorem search_catalog_raises_on_malformed_payload (search_string : string)
    (limit : Z) (g g' : Globals) (data : pyval) :
  call_api "GET" "/v2/getdataassetsarrforserversidewithmultifilters"
    (catalog_options search_string limit) g
  = (Returned (Success data), g') ->
  (is_object data = false ->
   exists e, search_catalog search_string limit g = (Raised e, g')
             /\ exn_type e = AttributeError)
  /\ (forall v,
        has_field data "dataAssetList" v -> is_sized v = false ->
        exists e, search_catalog search_string limit g = (Raised e, g')
                  /\ exn_type e = TypeError).
Proof.
  intros Hcall. rewrite (search_catalog_success_eq _ _ _ _ _ Hcall). split.
  - intros Hno. destruct data; try discriminate; cbn [py_get_default]; eauto.
  - intros v (d & -> & Hv) Hs. cbn [py_get_default]. rewrite Hv.
    destruct v; try discriminate; cbn [py_len]; eauto.
Qed.

(** [get_jobs_in_queue] on a successful call. *)
Lemma get_jobs_success_eq (limit : Z) (status : string) (g g' : Globals)
    (data : pyval) :
  call_api "GET" "/v2/getowlcheckq" (queue_options limit status) g
  = (Returned (Success data), g') ->
  get_jobs_in_queue limit status g =
    match
      match py_get_default data "data" (PList []) with
      | Raised e => Raised e
      | Returned jobs =>
      match py_iter jobs with
      | Raised e => Raised e
      | Returned items =>
      match for_each job_summary items with
      | Raised e => Raised e
      | Returned summary =>
          Returned
            (json_dumps (PDict [("success", PBool true);
                                ("count", PInt (Z.of_nat (length summary)));
                                ("data", PList summary)]))
      end end end
    with
    | Returned text => (Returned text, g')
    | Raised e =>
        dispatch [(KeyError, parse_failure); (TypeError, parse_failure)] e g'
    end.
Proof.
  intros Hcall. unfold get_jobs_in_queue. unfold bind at 1.
  change [("params", _)] with (queue_options limit status). rewrite Hcall.
  unfold bind at 1, lift at 1. cbn [py_getitem Success dict_lookup String.eqb
    Ascii.eqb Bool.eqb py_bool negb].
  unfold try_except, bind, lift.
  cbn [py_getitem Success dict_lookup String.eqb Ascii.eqb Bool.eqb].
  destruct (py_get_default data _ _) as [jobs|]; [|reflexivity].
  destruct (py_iter jobs) as [items|]; [|reflexivity].
  destruct (for_each job_summary items); reflexivity.
Qed.

Lemma for_each_job_summary (jobs : list dict) :
  for_each job_summary (map PDict jobs) = Returned (map job_entry jobs).
Proof.
  induction jobs as [|j jobs IH]; [reflexivity|].
  cbn [map for_each]. rewrite IH. reflexivity.
Qed.

Lemma job_summary_raises (x : pyval) (e : exn) :
  job_summary x = Raised e -> exn_type e = AttributeError.
Proof.
  destruct x; cbn; intros [= <-]; reflexivity.
Qed.

(** X16. On a successful queue call whose payload is an object listing job
    objects under [data], [get_jobs_in_queue] returns the JSON text of an
    object with [success] true, one entry per job in order holding its
    [dataset], [runId] and [status] ([null] for a missing one) and nothing
    else of the job, and the number of jobs as [count]; when the payload has
    no [data] field the list is empty and the count 0. *)
Theorem get_jobs_in_queue_summarises (limit : Z) (status : string)
    (g g' : Globals) (d : dict) :
  call_api "GET" "/v2/getowlcheckq" (queue_options limit status) g
  = (Returned (Success (PDict d)), g') ->
  (forall jobs,
      dict_lookup d "data" = Some (PList (map PDict jobs)) ->
      get_jobs_in_queue limit status g
      = (Returned
           (json_dumps
              (PDict [("success", PBool true);
                      ("count", PInt (Z.of_nat (length jobs)));
                      ("data", PList (map job_entry jobs))])), g'))
  /\ (dict_lookup d "data" = None ->
      get_jobs_in_queue limit status g
      = (Returned
           (json_dumps (PDict [("success", PBool true);
                               ("count", PInt 0);
                               ("data", PList [])])), g')).
Proof.
  intros Hcall. rewrite (get_jobs_success_eq _ _ _ _ _ Hcall).
  cbn [py_get_default]. split.
  - intros jobs ->. cbn [py_iter]. rewrite for_each_job_summary.
    now rewrite length_map.
  - intros ->. reflexivity.
Qed.

(** X17. When the [data] field of a successful queue payload cannot be
    iterated, [null] or a number, [get_jobs_in_queue] does not raise: its
    [except] clause turns the [TypeError] into the JSON text of a failure
    whose error is [Failed to parse response: ] followed by
    ['<type>' object is not iterable]. *)
Theorem get_jobs_in_queue_reports_uniterable_jobs (limit : Z)
    (status : string) (g g' : Globals) (data v : pyval) :
  call_api "GET" "/v2/getowlcheckq" (queue_options limit status) g
  = (Returned (Success data), g') ->
  has_field data "data" v ->
  is_iterable v = false ->
  get_jobs_in_queue limit status g
  = (Returned
       (json_dumps
          (Failure ("Failed to parse response: '" ++ py_type_name v
                    ++ "' object is not iterable"))), g').
Proof.
  intros Hcall (d & -> & Hv) Hi.
  rewrite (get_jobs_success_eq _ _ _ _ _ Hcall).
  cbn [py_get_default]. rewrite Hv.
  destruct v; try discriminate; reflexivity.
Qed.

(** X18. The only exception [get_jobs_in_queue] lets out is an
    [AttributeError], raised by [.get] on a payload or a job that is not an
    object; a [KeyError] or [TypeError] never leaves it. *)
Theorem get_jobs_in_queue_raises_only_AttributeError (limit : Z)
    (status : string) (g g' : Globals) (e : exn) :
  get_jobs_in_queue limit status g = (Raised e, g') ->
  exn_type e = AttributeError.
Proof.
  destruct (call_api_result "GET" "/v2/getowlcheckq"
              (queue_options limit status) g)
    as (v & g1 & Hcall & [[data ->] | [msg ->]]).
  2:{ unfold get_jobs_in_queue. unfold bind at 1.
      change [("params", _)] with (queue_options limit status).
      rewrite Hcall. discriminate. }
  rewrite (get_jobs_success_eq _ _ _ _ _ Hcall).
  destruct (py_get_default data "data" (PList [])) as [jobs | e1] eqn:H1.
  2:{ rewrite parse_clauses_pass
        by (left; eapply py_get_default_raises; eauto).
      intros [= <- _]. eapply py_get_default_raises; eauto. }
  destruct (py_iter jobs) as [items | e1] eqn:H2.
  2:{ rewrite parse_clauses_catch by (right; eapply py_iter_raises; eauto).
      discriminate. }
  destruct (for_each job_summary items) as [summary | e1] eqn:H3;
    [discriminate|].
  apply for_each_raises in H3 as (x & _ & Hx).
  apply job_summary_raises in Hx.
  rewrite parse_clauses_pass by auto. now intros [= <- _].
Qed.

End ListingTools.

(** * The properties at work *)

(** C3, on the code as it is.  A page that is not JSON comes back under
    status 200.  [Response.json] raises [requests.exceptions.JSONDecodeError];
    the clause [except requests.exceptions.RequestException] stands before
    [except json.JSONDecodeError] and the exception is an instance of both,
    so the result is tagged [Request failed], the category of transport
    errors, and the [Invalid JSON response] clause is never reached. *)
Theorem call_api_non_json_body_is_request_failed :
  fst (@call_api (runtime_of html_answers) "GET" "/v2/getrecentruns" [] fresh)
  = Returned
      (Failure "Request failed: Expecting value: line 1 column 1 (char 0)").
Proof. vm_compute. reflexivity. Qed.

Lemma call_api_http_error_witness :
  exists excerpt,
    @call_api (runtime_of error_answers) "GET" "/v2/getrecentruns" [] fresh
    = (Returned (Failure ("HTTP " ++ str_int 500 ++ ": " ++ excerpt)),
       error_globals)
    /\ excerpt = substring 0 500 "Internal Server Error"
    /\ String.length excerpt <= 500
    /\ prefix excerpt "Internal Server Error" = true
    /\ forall data,
         Failure ("HTTP " ++ str_int 500 ++ ": " ++ excerpt) <> Success data.
Proof.
  apply (@call_api_http_error (runtime_of error_answers) "GET"
           "/v2/getrecentruns" [] fresh error_globals
           (text_response 500 "Internal Server Error")).
  - vm_compute. reflexivity.
  - cbn. lia.
Defined.

(** C6, as stated, fails: a request answered with status 300, which is
    outside the 2xx range, and a JSON body passes [response.ok], and
    [call_api] returns a success with the decoded body. *)
Lemma call_api_status_300_is_success :
  ~ (200 <= status_code (json_response 300 (PList [])) < 300)%Z
  /\ @client_outcome (runtime_of status_300_answers) "GET"
       "/v2/getrecentruns" [] fresh
     = (Returned (json_response 300 (PList [])), status_300_globals)
  /\ @call_api (runtime_of status_300_answers) "GET" "/v2/getrecentruns" []
       fresh
     = (Returned (Success (PList [])), status_300_globals).
Proof.
  split; [cbn; lia|]. split; vm_compute; reflexivity.
Qed.

(** C4, as stated, fails: a sign-in answered with [{"token": null}] leaves
    [_token] at [None] next to a set [_headers]. *)
Lemma null_token_leaves_headers_alone :
  @reachable (runtime_of null_token_answers) sample_config
    (signed_in null_token_answers)
  /\ is_None (_token (self (signed_in null_token_answers))) = true
  /\ is_None (_headers (self (signed_in null_token_answers))) = false.
Proof.
  split; [|split; vm_compute; reflexivity].
  unfold signed_in, fresh_client. apply reach_step, reach_init.
Qed.

Lemma token_and_headers_together_witness :
  (is_None (_headers (self (signed_in html_answers))) = true ->
   is_None (_token (self (signed_in html_answers))) = true)
  /\ (@tokens_not_null (runtime_of html_answers) ->
      is_None (_token (self (signed_in html_answers)))
      = is_None (_headers (self (signed_in html_answers)))).
Proof.
  apply (@token_and_headers_together (runtime_of html_answers) sample_config
           (signed_in html_answers)).
  unfold signed_in, fresh_client. apply reach_step, reach_init.
Defined.

(** C5, as stated, fails: a sign-in answered with status 300, which is not a
    2xx status, and a body that holds a token raises nothing, and the
    instance ends up with the token and the headers set. *)
Lemma signin_with_status_300_succeeds :
  @network (runtime_of multiple_choices_answers) (wire fresh_client)
     (signin_call sample_config)
  = Responds (json_response 300 (PDict [("token", PStr "abc")]))
  /\ ~ (200 <= 300 < 300)%Z
  /\ fst (@_authenticate (runtime_of multiple_choices_answers) fresh_client)
     = Returned tt
  /\ self (snd (@_authenticate (runtime_of multiple_choices_answers)
                  fresh_client))
     = mkClient sample_config (PStr "abc")
         (PDict [("Content-Type", PStr "application/json");
                 ("accept", PStr "application/json");
                 ("Authorization", PStr "Bearer abc")]).
Proof.
  split; [reflexivity|]. split; [lia|]. split; vm_compute; reflexivity.
Qed.

Lemma signin_failure_leaves_state_witness :
  @_authenticate (runtime_of []) fresh_client
  = (Raised (mkExn ConnectionError "Connection refused"),
     sent fresh_client (signin_call sample_config))
  /\ self (sent fresh_client (signin_call sample_config)) = self fresh_client
  /\ (is_None (_headers (self fresh_client)) = true ->
      forall method endpoint kwargs,
        @request (runtime_of []) method endpoint kwargs fresh_client
        = (Raised (mkExn ConnectionError "Connection refused"),
           sent fresh_client (signin_call sample_config))
        /\ attempts (wire fresh_client)
             (wire (sent fresh_client (signin_call sample_config))) = []).
Proof.
  apply (@signin_failure_leaves_state (runtime_of []) fresh_client
           (mkExn ConnectionError "Connection refused")).
  vm_compute. apply transport_failure.
Defined.

(** C9, as stated, fails: the instance holds the token [abc]; its request
    meets a 401 and the sign-in that follows is answered with
    [{"token": null}], which sets [_token] back to [None]. *)
Lemma null_token_resets_token :
  is_None (_token (self (signed_in expiry_null_answers))) = false
  /\ is_None (_headers (self (signed_in expiry_null_answers))) = false
  /\ is_None (_token (self (@perform (runtime_of expiry_null_answers)
                              (call_get "/v2/getrecentruns" [])
                              (signed_in expiry_null_answers)))) = true.
Proof. repeat split; vm_compute; reflexivity. Qed.

Lemma authenticated_stays_authenticated_witness :
  is_None (_headers (self (@perform (runtime_of expiry_down_answers)
                             (call_get "/v2/getrecentruns" [])
                             (signed_in expiry_down_answers)))) = false
  /\ _token (self (@perform (runtime_of expiry_down_answers)
                     (call_get "/v2/getrecentruns" [])
                     (signed_in expiry_down_answers))) = PStr "abc".
Proof.
  destruct (@authenticated_stays_authenticated
              (runtime_of expiry_down_answers)
              (signed_in expiry_down_answers)
              (call_get "/v2/getrecentruns" []) eq_refl) as (Hh & _ & _).
  split; [exact Hh | vm_compute; reflexivity].
Defined.

(** The mock of the specification: the schema [a], [b] and twelve rows give
    the title, the table of the first ten rows and the note. *)
Lemma run_sql_table_witness :
  @run_sql (runtime_of sql_answers) "select a, b from t" fresh
  = (Returned
       (("Results for: `select a, b from t`" ++ nl ++ nl)
        ++ sample_markdown
             (mkFrame [PStr "a"; PStr "b"] (firstn 10 twelve_rows))
        ++ nl ++ nl ++ "*Showing 10 of 12 rows*"),
     sql_globals)
  /\ length (firstn 10 twelve_rows) = 10.
Proof.
  assert (Hpayload : sql_payload twelve_row_payload [PStr "a"; PStr "b"]
                       twelve_rows).
  { eexists; eexists. split; [eexists; split; [reflexivity|]; reflexivity|].
    split; [repeat constructor; eexists; split; reflexivity|].
    split; [eexists; split; [reflexivity|]; reflexivity|].
    repeat constructor;
      (eexists; split; [reflexivity|]; repeat constructor;
       eexists; split; reflexivity). }
  assert (Hrect : rectangular [PStr "a"; PStr "b"] twelve_rows)
    by (repeat constructor).
  destruct (@run_sql_table (runtime_of sql_answers) "select a, b from t"
              fresh sql_globals twelve_row_payload [PStr "a"; PStr "b"]
              twelve_rows eq_refl Hpayload Hrect) as (Hlen & _ & Hmore).
  split; [|exact Hlen].
  rewrite (Hmore ltac:(vm_compute; lia)). vm_compute. reflexivity.
Defined.

(** The rules example of the specification. *)
Lemma get_rules_by_dataset_shape_witness :
  @get_rules_by_dataset (runtime_of rules_answers) "sales" fresh
  = (Returned
       (sample_dumps
          (PDict [("success", PBool true);
                  ("data",
                   PList [PDict [("name", PStr "r1");
                                 ("sql", PStr "select 1");
                                 ("type", PStr "SQLF");
                                 ("points", PInt 5)]])])),
     rules_globals).
Proof.
  destruct (@get_rules_by_dataset_shape (runtime_of rules_answers) "sales"
              fresh rules_globals [one_rule] eq_refl) as (_ & Hsome).
  apply Hsome. discriminate.
Defined.

(** Two 401s in a row: the second one is what [request] returns, two
    attempts went out, the second under the token of the second sign-in,
    and the wire holds four calls. *)
Example request_double_401 :
  let run := @request (runtime_of double_401_answers) "GET"
               "/v2/getrecentruns" [] fresh_client in
  fst run = Returned (text_response 401 "Unauthorized again")
  /\ map (fun c => dict_lookup (call_kwargs c) "headers")
       (attempts [] (wire (snd run)))
     = [Some (@auth_headers (runtime_of double_401_answers) (PStr "abc"));
        Some (@auth_headers (runtime_of double_401_answers) (PStr "def"))]
  /\ map api (wire (snd run)) = [via_post; via_request; via_post; via_request].
Proof. vm_compute. auto. Qed.

(** A 500 is not retried. *)
Example request_500_once :
  let run := @request (runtime_of error_answers) "GET" "/v2/getrecentruns" []
               fresh_client in
  fst run = Returned (text_response 500 "Internal Server Error")
  /\ map api (wire (snd run)) = [via_post; via_request].
Proof. vm_compute. auto. Qed.

(** A failed registration: the tool reports it and no job is run. *)
Example run_dq_job_registration_down :
  let run := @run_dq_job (runtime_of registration_down_answers) "sales"
               "2025-01-23" "select 1" fresh in
  fst run
  = Returned (sample_dumps (Failure "Registration failed: HTTP 500: boom"))
  /\ map call_url (wire (snd run))
     = ["https://dq.example/auth/signin"; "https://dq.example/v3/datasetDefs"].
Proof. vm_compute. auto. Qed.

(** The clause order on the classes a transport can raise: a connect
    timeout is both a connection error and a timeout, and counts as the
    former. *)
Example connect_timeout_is_connection_error :
  @dispatch unit _ call_api_clauses (mkExn ConnectTimeout "timed out") tt
  = (Returned (Failure "Connection error: timed out"), tt).
Proof. reflexivity. Qed.

Example read_timeout_is_timeout :
  @dispatch unit _ call_api_clauses (mkExn ReadTimeout "timed out") tt
  = (Returned (Failure "Request timeout: timed out"), tt).
Proof. reflexivity. Qed.

Example key_error_is_unexpected :
  @dispatch unit _ call_api_clauses (mkExn KeyError "'token'") tt
  = (Returned (Failure "Unexpected error: KeyError: 'token'"), tt).
Proof. reflexivity. Qed.

(** ** The further properties at work *)

Lemma request_reuses_cached_headers_witness :
  @request (runtime_of html_answers) "GET" "/v2/getrecentruns" []
    (signed_in html_answers)
  = (Returned (text_response 200 "<html>Sign in</html>"),
     sent (signed_in html_answers)
       (@first_attempt sample_config "GET" "/v2/getrecentruns" []
          (_headers (self (signed_in html_answers))))).
Proof.
  apply (@request_reuses_cached_headers (runtime_of html_answers) "GET"
           "/v2/getrecentruns" [] (signed_in html_answers)).
  - vm_compute. reflexivity.
  - intros r H. vm_compute in H. injection H as <-. vm_compute. discriminate.
Defined.

Lemma first_request_carries_bearer_token_witness :
  dict_lookup
    (call_kwargs
       (@first_attempt sample_config "GET" "/v2/getrecentruns" []
          (PDict [("Content-Type", PStr "application/json");
                  ("accept", PStr "application/json");
                  ("Authorization", PStr "Bearer abc")])))
    "headers"
  = Some (PDict [("Content-Type", PStr "application/json");
                 ("accept", PStr "application/json");
                 ("Authorization", PStr "Bearer abc")])
  /\ exists rest,
       wire (snd (@request (runtime_of html_answers) "GET"
                    "/v2/getrecentruns" [] fresh_client))
       = (signin_call sample_config
          :: @first_attempt sample_config "GET" "/v2/getrecentruns" []
               (PDict [("Content-Type", PStr "application/json");
                       ("accept", PStr "application/json");
                       ("Authorization", PStr "Bearer abc")])
          :: rest).
Proof.
  apply (@first_request_carries_bearer_token (runtime_of html_answers) "GET"
           "/v2/getrecentruns" [] fresh_client
           (json_response 200 (PDict [("token", PStr "abc")]))
           (PDict [("token", PStr "abc")]) "abc").
  - reflexivity.
  - reflexivity.
  - unfold in_success_range. cbn. lia.
  - reflexivity.
  - eexists. split; reflexivity.
Defined.

Lemma call_api_reports_signin_failure_witness :
  @call_api (runtime_of []) "GET" "/v2/getrecentruns" [] fresh
  = (Returned (Failure "Connection error: Connection refused"),
     mkWorld (Some (__init__ sample_config)) [signin_call sample_config])
  /\ is_None (_headers (__init__ sample_config)) = true.
Proof.
  apply (@call_api_reports_signin_failure (runtime_of []) "GET"
           "/v2/getrecentruns" [] fresh
           (mkExn ConnectionError "Connection refused")).
  - intros c H. discriminate H.
  - vm_compute. apply transport_failure.
Defined.

Lemma run_sql_reports_missing_schema_witness :
  exists e,
    py_getitem no_schema_payload "schema" = Raised e
    /\ (exn_type e = KeyError \/ exn_type e = TypeError)
    /\ (is_object no_schema_payload = true -> e = mkExn KeyError "'schema'")
    /\ @run_sql (runtime_of (answers_with no_schema_payload)) "select 1" fresh
       = (Returned
            (sample_dumps (Failure ("Failed to parse response: " ++ exn_str e))),
          after_call (answers_with no_schema_payload) "POST"
            "/v2/getsqlresult"
            (@sql_options (runtime_of (answers_with no_schema_payload))
               "select 1")).
Proof.
  apply (@run_sql_reports_missing_schema
           (runtime_of (answers_with no_schema_payload)) "select 1" fresh
           (after_call (answers_with no_schema_payload) "POST"
              "/v2/getsqlresult"
              (@sql_options (runtime_of (answers_with no_schema_payload))
                 "select 1"))
           no_schema_payload).
  - vm_compute. reflexivity.
  - intros x (d & Hd & Hl). injection Hd as <-. discriminate Hl.
Defined.

Lemma run_sql_raises_on_ragged_rows_witness :
  exists e,
    @run_sql (runtime_of (answers_with wide_row_payload)) "select 1" fresh
    = (Raised e,
       after_call (answers_with wide_row_payload) "POST" "/v2/getsqlresult"
         (@sql_options (runtime_of (answers_with wide_row_payload))
            "select 1"))
    /\ exn_type e = ValueError.
Proof.
  apply (@run_sql_raises_on_ragged_rows
           (runtime_of (answers_with wide_row_payload)) "select 1" fresh
           (after_call (answers_with wide_row_payload) "POST"
              "/v2/getsqlresult"
              (@sql_options (runtime_of (answers_with wide_row_payload))
                 "select 1"))
           wide_row_payload [PStr "a"] [[PInt 1; PInt 2]]).
  - vm_compute. reflexivity.
  - eexists; eexists. split; [eexists; split; reflexivity|].
    split; [repeat constructor; eexists; split; reflexivity|].
    split; [eexists; split; reflexivity|].
    repeat constructor. eexists. split; [reflexivity|].
    repeat constructor; eexists; split; reflexivity.
  - repeat constructor. eexists. reflexivity.
  - discriminate.
  - vm_compute. lia.
Defined.

Lemma get_rules_reports_no_rules_on_falsy_payload_witness :
  @get_rules_by_dataset (runtime_of (answers_with PNone)) "sales" fresh
  = (Returned
       (sample_dumps
          (PDict [("success", PBool true);
                  ("message", PStr "No rules found for dataset: sales")])),
     after_call (answers_with PNone) "GET" "/v3/rules/sales" []).
Proof.
  apply (@get_rules_reports_no_rules_on_falsy_payload
           (runtime_of (answers_with PNone)) "sales" fresh
           (after_call (answers_with PNone) "GET" "/v3/rules/sales" [])
           PNone).
  - vm_compute. reflexivity.
  - reflexivity.
Defined.

Lemma get_rules_raises_on_malformed_payload_witness :
  exists e,
    @get_rules_by_dataset (runtime_of (answers_with (PList [PInt 1])))
      "sales" fresh
    = (Raised e,
       after_call (answers_with (PList [PInt 1])) "GET" "/v3/rules/sales" [])
    /\ exn_type e = AttributeError.
Proof.
  destruct (@get_rules_raises_on_malformed_payload
              (runtime_of (answers_with (PList [PInt 1]))) "sales" fresh
              (after_call (answers_with (PList [PInt 1])) "GET"
                 "/v3/rules/sales" [])
              (PList [PInt 1]) eq_refl) as (Hbad & _).
  apply (Hbad [PInt 1] eq_refl).
  exists (PInt 1). split; [left; reflexivity | reflexivity].
Defined.

Lemma search_catalog_counts_datasets_witness :
  @search_catalog
    (runtime_of (answers_with (PDict [("dataAssetList", PList two_assets)])))
    "s" 50 fresh
  = (Returned
       (sample_dumps (PDict [("success", PBool true);
                             ("count", PInt 2);
                             ("data", PList two_assets)])),
     after_call (answers_with (PDict [("dataAssetList", PList two_assets)]))
       "GET" "/v2/getdataassetsarrforserversidewithmultifilters"
       (@catalog_options
          (runtime_of
             (answers_with (PDict [("dataAssetList", PList two_assets)])))
          "s" 50)).
Proof.
  destruct (@search_catalog_counts_datasets
              (runtime_of
                 (answers_with (PDict [("dataAssetList", PList two_assets)])))
              "s" 50 fresh
              (after_call
                 (answers_with (PDict [("dataAssetList", PList two_assets)]))
                 "GET" "/v2/getdataassetsarrforserversidewithmultifilters"
                 (@catalog_options
                    (runtime_of
                       (answers_with
                          (PDict [("dataAssetList", PList two_assets)])))
                    "s" 50))
              [("dataAssetList", PList two_assets)] eq_refl) as (Hsome & _).
  apply (Hsome two_assets eq_refl).
Defined.

Lemma search_catalog_raises_on_malformed_payload_witness :
  exists e,
    @search_catalog (runtime_of (answers_with null_assets_payload)) "s" 50
      fresh
    = (Raised e,
       after_call (answers_with null_assets_payload) "GET"
         "/v2/getdataassetsarrforserversidewithmultifilters"
         (@catalog_options (runtime_of (answers_with null_assets_payload))
            "s" 50))
    /\ exn_type e = TypeError.
Proof.
  destruct (@search_catalog_raises_on_malformed_payload
              (runtime_of (answers_with null_assets_payload)) "s" 50 fresh
              (after_call (answers_with null_assets_payload) "GET"
                 "/v2/getdataassetsarrforserversidewithmultifilters"
                 (@catalog_options
                    (runtime_of (answers_with null_assets_payload)) "s" 50))
              null_assets_payload eq_refl) as (_ & Hnull).
  apply (Hnull PNone); [eexists; split; reflexivity | reflexivity].
Defined.

Lemma get_jobs_in_queue_summarises_witness :
  @get_jobs_in_queue
    (runtime_of (answers_with (PDict [("data", PList [PDict one_job])])))
    10 "" fresh
  = (Returned
       (sample_dumps
          (PDict [("success", PBool true);
                  ("count", PInt 1);
                  ("data",
                   PList [PDict [("dataset", PStr "sales");
                                 ("runId", PStr "2025-01-23");
                                 ("status", PStr "RUNNING")]])])),
     after_call (answers_with (PDict [("data", PList [PDict one_job])]))
       "GET" "/v2/getowlcheckq" (queue_options 10 "")).
Proof.
  destruct (@get_jobs_in_queue_summarises
              (runtime_of
                 (answers_with (PDict [("data", PList [PDict one_job])])))
              10 "" fresh
              (after_call
                 (answers_with (PDict [("data", PList [PDict one_job])]))
                 "GET" "/v2/getowlcheckq" (queue_options 10 ""))
              [("data", PList [PDict one_job])] eq_refl) as (Hsome & _).
  apply (Hsome [one_job] eq_refl).
Defined.

Lemma get_jobs_in_queue_reports_uniterable_jobs_witness :
  @get_jobs_in_queue (runtime_of (answers_with (PDict [("data", PNone)])))
    10 "" fresh
  = (Returned
       (sample_dumps
          (Failure
             "Failed to parse response: 'NoneType' object is not iterable")),
     after_call (answers_with (PDict [("data", PNone)])) "GET"
       "/v2/getowlcheckq" (queue_options 10 "")).
Proof.
  apply (@get_jobs_in_queue_reports_uniterable_jobs
           (runtime_of (answers_with (PDict [("data", PNone)]))) 10 "" fresh
           (after_call (answers_with (PDict [("data", PNone)])) "GET"
              "/v2/getowlcheckq" (queue_options 10 ""))
           (PDict [("data", PNone)]) PNone).
  - vm_compute. reflexivity.
  - eexists; split; reflexivity.
  - reflexivity.
Defined.

Lemma get_jobs_in_queue_raises_only_AttributeError_witness :
  @get_jobs_in_queue (runtime_of (answers_with (PList []))) 10 "" fresh
  = (Raised (mkExn AttributeError "'list' object has no attribute 'get'"),
     after_call (answers_with (PList [])) "GET" "/v2/getowlcheckq"
       (queue_options 10 ""))
  /\ exn_type (mkExn AttributeError "'list' object has no attribute 'get'")
     = AttributeError.
Proof.
  split; [vm_compute; reflexivity|].
  apply (@get_jobs_in_queue_raises_only_AttributeError
           (runtime_of (answers_with (PList []))) 10 "" fresh
           (after_call (answers_with (PList [])) "GET" "/v2/getowlcheckq"
              (queue_options 10 ""))).
  vm_compute. reflexivity.
Defined.
